(** * NS-3 RPL DAO attack analysis: the experiment driver of [output.py]

    A shallow embedding of the sweep driver: the construction of the
    simulator command line, the reading of the three result files, the
    three collectors (baseline, attack frequency, threshold), the selection
    logic of the six figures and the summary statistics.

    Conventions of the embedding.
    - The simulator and the file system are outside the program: they are
      the Section variables [W], [exec] and [file] below.  Every theorem
      holds for every simulator.
    - A cell of a result file is a [value]: a number, a float that is not
      finite, or text.  Numbers are exact rationals: [value] does not
      round as binary64 arithmetic does.
    - The shell command is kept as the ordered list of [--key=value]
      options that the f-string of [run_simulation] spells out.
    - Console output is not modelled, except where formatting a value can
      raise.
    - The plotting calls are recorded ([Figure]), not interpreted: what is
      modelled of the figures is which rows are selected for them and the
      exceptions of that selection.
    - The embedding covers the runs in which [subprocess.run] returns an
      exit status.  The call stands outside the [try] of [run_simulation]
      and raises when the output of the simulator cannot be decoded; such
      a run is not modelled.
    - A column of [True]/[False] cells (numpy bool) is not modelled.
    - Because [value] holds exact rationals, the multiplication of line 61
      is modelled a second time in the arithmetic of numpy ([np_scalar],
      [times_1000]): binary64 with its rounding, int64 with its wrap-around.
      What is claimed about the exactness of the conversion is settled
      there. *)

From Stdlib Require Import ZArith QArith List String Bool Lia.
From Stdlib Require Import Sorted Permutation.
From Stdlib Require Import Floats.
Import ListNotations.
Open Scope string_scope.
Open Scope list_scope.
Open Scope Z_scope.

Set Implicit Arguments.

(** ** Python values and exceptions *)

Inductive value : Type :=
| VNum (q : Q)          (* a finite number (numpy int64 / float64) *)
| VNonFinite            (* inf, -inf or nan *)
| VStr (s : string).    (* a cell of an object column *)

Inductive pyexn : Type :=
| FileNotFoundError | EmptyDataError | KeyError | IndexError
| ValueError | TypeError | ParserError.

Inductive result (A : Type) : Type :=
| Ok (a : A)
| Raise (e : pyexn).
Arguments Ok {A} a.
Arguments Raise {A} e.

Definition rbind {A B} (r : result A) (k : A -> result B) : result B :=
  match r with
  | Ok a => k a
  | Raise e => Raise e
  end.

Declare Scope res_scope.
Delimit Scope res_scope with res.
Notation "x <-- r ;; k" := (rbind r (fun x => k))
  (at level 61, r at next level, right associativity) : res_scope.

Definition is_number (v : value) : bool :=
  match v with VStr _ => false | _ => true end.

Definition is_finite (v : value) : bool :=
  match v with VNum _ => true | _ => false end.

Fixpoint repeat_string (s : string) (n : nat) : string :=
  match n with
  | O => EmptyString
  | S n' => String.append s (repeat_string s n')
  end.

(** [v * k] for an integer literal [k]: numbers are multiplied, text is
    repeated. *)
Definition py_mul (v : value) (k : Z) : value :=
  match v with
  | VNum q => VNum (q * inject_Z k)
  | VNonFinite => VNonFinite
  | VStr s => VStr (repeat_string s (Z.to_nat k))
  end.

(** [a - b]: text operands raise. *)
Definition py_sub (a b : value) : result value :=
  match a, b with
  | VStr _, _ | _, VStr _ => Raise TypeError
  | VNum x, VNum y => Ok (VNum (x - y))
  | _, _ => Ok VNonFinite
  end.

(** [a / b] on numpy scalars: a zero divisor gives inf or nan (with a
    warning), never an exception.  inf and nan are not told apart. *)
Definition py_div (a b : value) : result value :=
  match a, b with
  | VStr _, _ | _, VStr _ => Raise TypeError
  | VNum x, VNum y => if Qeq_bool y 0 then Ok VNonFinite else Ok (VNum (x / y))
  | _, _ => Ok VNonFinite
  end.

(** The format specs [:.3f], [:.2f], [:.1f]: only the failure is kept. *)
Definition format_f (v : value) : result unit :=
  match v with
  | VStr _ => Raise ValueError
  | _ => Ok tt
  end.

(** ** Data frames as [read_csv] returns them *)

(** Column name and column cells, in file order.  A frame stands for what
    [read_csv] returned, after its type inference, which types a column as
    a whole: a text cell anywhere in a column makes every cell of the column
    text.  The type below does not enforce this, nor that the columns have
    one length. *)
Definition DataFrame := list (string * list value).

Fixpoint column (df : DataFrame) (name : string) : result (list value) :=
  match df with
  | [] => Raise KeyError
  | (n, cells) :: rest => if String.eqb n name then Ok cells else column rest name
  end.

(** [df.empty] *)
Definition is_empty {A} (df : list A) : bool :=
  match df with [] => true | _ => false end.

(** [xs.values[0]] *)
Definition values0 {A} (xs : list A) : result A :=
  match xs with
  | [] => Raise IndexError
  | x :: _ => Ok x
  end.

(** [df[name].values[0]] *)
Definition cell0 (df : DataFrame) (name : string) : result value :=
  (cells <-- column df name ;; values0 cells)%res.

Inductive File : Type :=
| Missing                 (* no such file *)
| Empty                   (* a file of zero bytes *)
| Malformed               (* content that [read_csv] cannot parse or decode *)
| Csv (df : DataFrame).   (* a header row and the rows below it *)

(** ** The simulator command line *)

Inductive arg : Type :=
| ABool (b : bool)
| AInt (z : Z)
| AFloat (q : Q).

Record Cmd : Type := mkCmd {
  program : string;
  options : list (string * arg)
}.

Definition NS3_PATH := "/home/sandeep-1/ns-allinone-3.45/ns-3.45".
Definition pdr_csv := String.append NS3_PATH "/results/run1_pdr.csv".
Definition delay_csv := String.append NS3_PATH "/results/run1_delay.csv".
Definition overhead_csv := String.append NS3_PATH "/results/run1_overhead.csv".

Definition build_cmd (attack : bool) (attacker_pps threshold n_nodes : Z)
    (window : Q) (sim_time : Z) : Cmd :=
  if attack then
    mkCmd "./ns3 run ns3_rpl_dao_mitigation"
      [ ("attack", ABool true); ("attackerPps", AInt attacker_pps);
        ("attackerPkt", AInt 120); ("threshold", AInt threshold);
        ("windowSec", AFloat window); ("nNodes", AInt n_nodes);
        ("area", AInt 60); ("rateKbps", AInt 16); ("simTime", AInt sim_time) ]
  else
    mkCmd "./ns3 run ns3_rpl_dao_mitigation"
      [ ("attack", ABool false); ("nNodes", AInt n_nodes);
        ("area", AInt 60); ("rateKbps", AInt 16); ("simTime", AInt sim_time) ].

(** The options that only make sense under attack. *)
Definition attack_only_keys : list string :=
  ["attackerPps"; "attackerPkt"; "threshold"; "windowSec"].

Definition keys (c : Cmd) : list string := map fst (options c).

(** ** Records and datasets *)

(** The dict returned by [run_simulation]. *)
Record Metrics : Type := mkMetrics {
  pdr : value;
  tx : value;
  rx : value;
  delay_ms : value;
  ctrl_tx : value;
  ctrl_rx : value;
  ctrl_dropped : value
}.

(** A row of a dataset: the metrics, the ['scenario'] key and, in the two
    sweeps, the swept key (['attack_pps'] or ['threshold']). *)
Record BaselineRow : Type := mkBaselineRow {
  b_metrics : Metrics;
  b_scenario : string
}.

Record FreqRow : Type := mkFreqRow {
  f_metrics : Metrics;
  f_scenario : string;
  attack_pps : Z
}.

Record ThreshRow : Type := mkThreshRow {
  t_metrics : Metrics;
  t_scenario : string;
  threshold : Z
}.

(** ** State and exceptions *)

Definition M (S A : Type) : Type := S -> result A * S.

Definition ret {S A} (a : A) : M S A := fun st => (Ok a, st).

Definition bind {S A B} (c : M S A) (k : A -> M S B) : M S B :=
  fun st =>
    match c st with
    | (Ok a, st') => k a st'
    | (Raise e, st') => (Raise e, st')
    end.

(** A computation that cannot raise. *)
Definition total {S A} (c : S -> A * S) : M S A :=
  fun st => let (a, st') := c st in (Ok a, st').

(** A pure check that can raise. *)
Definition check {S A} (r : result A) : M S A := fun st => (r, st).

Declare Scope m_scope.
Delimit Scope m_scope with m.
Notation "x <- c ;; k" := (bind c (fun x => k))
  (at level 61, c at next level, right associativity) : m_scope.
Notation "c ;;; k" := (bind c (fun _ => k))
  (at level 61, right associativity) : m_scope.

(** [for x in xs: acc = body x acc] *)
Fixpoint for_each {S A B} (xs : list A) (body : A -> B -> M S B) (acc : B)
    : M S B :=
  match xs with
  | [] => ret acc
  | x :: xs' => (acc' <- body x acc ;; for_each xs' body acc')%m
  end.

(** ** The driver, for an arbitrary simulator *)

Section Driver.

(** The world outside the program: its states, what running a command
    does to it (exit status and next state) and the files it shows. *)
Variable W : Type.
Variable exec : Cmd -> W -> Z * W.
Variable file : W -> string -> File.

(** The world together with the log of the commands run so far. *)
Record St : Type := mkSt {
  world : W;
  calls : list Cmd
}.

Definition read_csv (w : W) (path : string) : result DataFrame :=
  match file w path with
  | Missing => Raise FileNotFoundError
  | Empty => Raise EmptyDataError
  | Malformed => Raise ParserError
  | Csv df => Ok df
  end.

(** The body of the [try] of [run_simulation]. *)
Definition read_results (w : W) : result Metrics :=
  (pdr <-- read_csv w pdr_csv ;;
   delay <-- read_csv w delay_csv ;;
   overhead <-- read_csv w overhead_csv ;;
   v_pdr <-- cell0 pdr "pdr" ;;
   v_tx <-- cell0 pdr "tx" ;;
   v_rx <-- cell0 pdr "rx" ;;
   v_delay <-- cell0 delay "avg_delay_s" ;;
   v_ctrl_tx <-- cell0 overhead "control_tx" ;;
   v_ctrl_rx <-- cell0 overhead "control_rx" ;;
   v_ctrl_dropped <-- cell0 overhead "control_dropped" ;;
   Ok {| pdr := v_pdr;
         tx := v_tx;
         rx := v_rx;
         delay_ms := py_mul v_delay 1000;
         ctrl_tx := v_ctrl_tx;
         ctrl_rx := v_ctrl_rx;
         ctrl_dropped := v_ctrl_dropped |})%res.

Definition subprocess_run (cmd : Cmd) (st : St) : Z * St :=
  let (returncode, w') := exec cmd (world st) in
  (returncode, mkSt w' (calls st ++ [cmd])).

(** [run_simulation]: [None] on a non-zero exit status and on any
    exception of the reading step. *)
Definition run_simulation (attack : bool) (attacker_pps threshold n_nodes : Z)
    (window : Q) (sim_time : Z) (st : St) : option Metrics * St :=
  let cmd := build_cmd attack attacker_pps threshold n_nodes window sim_time in
  let (returncode, st') := subprocess_run cmd st in
  if negb (returncode =? 0) then (None, st')
  else
    match read_results (world st') with
    | Ok r => (Some r, st')
    | Raise _ => (None, st')
    end.

(** [print(f"   ✓ PDR: {result['pdr']:.3f}")] *)
Definition print_pdr (r : Metrics) : M St unit := check (format_f (pdr r)).

(** The keyword defaults of [run_simulation]:
    [attacker_pps=800, threshold=20, n_nodes=25, window=1.0, sim_time=120]. *)
Definition collect_baseline_data : M St (list BaselineRow) :=
  (let scenarios := [] in
   (* RPL (No Attack) *)
   result <- total (run_simulation false 800 20 25 1 120) ;;
   scenarios <-
     match result with
     | Some r =>
         let scenarios := scenarios ++ [mkBaselineRow r "RPL"] in
         print_pdr r ;;; ret scenarios
     | None => ret scenarios
     end ;;
   (* InsecRPL (Attack Only) *)
   result <- total (run_simulation true 800 1000000000 25 1 120) ;;
   scenarios <-
     match result with
     | Some r =>
         let scenarios := scenarios ++ [mkBaselineRow r "InsecRPL"] in
         print_pdr r ;;; ret scenarios
     | None => ret scenarios
     end ;;
   (* SecRPL (Attack + Mitigation) *)
   result <- total (run_simulation true 800 20 25 1 120) ;;
   scenarios <-
     match result with
     | Some r =>
         let scenarios := scenarios ++ [mkBaselineRow r "SecRPL"] in
         print_pdr r ;;; ret scenarios
     | None => ret scenarios
     end ;;
   ret scenarios)%m.

Definition frequencies : list Z := [200; 400; 600; 800; 1000].

(** The body of the loop over the frequencies. *)
Definition frequency_step (pps : Z) (all_data : list FreqRow)
    : M St (list FreqRow) :=
  ((* InsecRPL *)
   result <- total (run_simulation true pps 1000000000 25 1 120) ;;
   all_data <-
     match result with
     | Some r => ret (all_data ++ [mkFreqRow r "InsecRPL" pps])
     | None => ret all_data
     end ;;
   (* SecRPL *)
   result <- total (run_simulation true pps 20 25 1 120) ;;
   match result with
   | Some r => ret (all_data ++ [mkFreqRow r "SecRPL" pps])
   | None => ret all_data
   end)%m.

(** The body of the loop that copies the no-attack record [result]. *)
Definition baseline_copy_step (result : Metrics) (pps : Z)
    (all_data : list FreqRow) : M St (list FreqRow) :=
  let r := result in   (* result.copy() *)
  ret (all_data ++ [mkFreqRow r "RPL" pps]).

Definition collect_attack_frequency_data : M St (list FreqRow) :=
  (let all_data := [] in
   all_data <- for_each frequencies frequency_step all_data ;;
   (* Add RPL baseline for all frequencies *)
   result <- total (run_simulation false 800 20 25 1 120) ;;
   match result with
   | Some r => for_each frequencies (baseline_copy_step r) all_data
   | None => ret all_data
   end)%m.

Definition thresholds : list Z := [5; 10; 20; 30; 50].

(** The body of the loop over the thresholds. *)
Definition threshold_step (thresh : Z) (all_data : list ThreshRow)
    : M St (list ThreshRow) :=
  (result <- total (run_simulation true 800 thresh 25 1 120) ;;
   match result with
   | Some r =>
       let all_data := all_data ++ [mkThreshRow r "SecRPL" thresh] in
       print_pdr r ;;; ret all_data
   | None => ret all_data
   end)%m.

Definition collect_threshold_data : M St (list ThreshRow) :=
  let all_data := [] in
  for_each thresholds threshold_step all_data.

(** *** The controller as the specification words it

    "For each experiment design, iterate its combinations in the fixed
    order, invoke the Scenario Runner, and append present results."  The
    collectors above are compared with this reading. *)

Record Combination : Type := mkCombination {
  c_label : string;
  c_attack : bool;
  c_pps : Z;
  c_threshold : Z
}.

Definition command_of (c : Combination) : Cmd :=
  build_cmd (c_attack c) (c_pps c) (c_threshold c) 25 1 120.

Definition run_combination (c : Combination) (st : St) : option Metrics * St :=
  run_simulation (c_attack c) (c_pps c) (c_threshold c) 25 1 120 st.

(** The outcomes of the combinations, run one after the other. *)
Fixpoint run_all (cs : list Combination) (st : St)
    : list (option Metrics) * St :=
  match cs with
  | [] => ([], st)
  | c :: cs' =>
      let (o, st1) := run_combination c st in
      let (os, st2) := run_all cs' st1 in
      (o :: os, st2)
  end.

(** The rows of the present outcomes, in order. *)
Definition present {K Row} (mk : Metrics -> K -> Row)
    (outcomes : list (K * option Metrics)) : list Row :=
  flat_map (fun ko => match snd ko with
                      | Some r => [mk r (fst ko)]
                      | None => []
                      end) outcomes.

Definition baseline_row (r : Metrics) (c : Combination) : BaselineRow :=
  mkBaselineRow r (c_label c).

Definition frequency_row (r : Metrics) (c : Combination) : FreqRow :=
  mkFreqRow r (c_label c) (c_pps c).

Definition threshold_row (r : Metrics) (c : Combination) : ThreshRow :=
  mkThreshRow r (c_label c) (c_threshold c).

Definition baseline_combinations : list Combination :=
  [ mkCombination "RPL" false 800 20;
    mkCombination "InsecRPL" true 800 1000000000;
    mkCombination "SecRPL" true 800 20 ].

Definition frequency_pair (pps : Z) : list Combination :=
  [ mkCombination "InsecRPL" true pps 1000000000;
    mkCombination "SecRPL" true pps 20 ].

Definition frequency_combinations : list Combination :=
  flat_map frequency_pair frequencies.

Definition threshold_combination (thresh : Z) : Combination :=
  mkCombination "SecRPL" true 800 thresh.

(** The row of one outcome, if it is present. *)
Definition labelled (label : string) (o : option Metrics) : list BaselineRow :=
  match o with
  | Some r => [mkBaselineRow r label]
  | None => []
  end.

(** One no-attack record attached to every rate. *)
Definition broadcast (o : option Metrics) : list FreqRow :=
  match o with
  | Some r => map (fun pps => mkFreqRow r "RPL" pps) frequencies
  | None => []
  end.

End Driver.

(** The value can be printed with a float format. *)
Definition printable (o : option Metrics) : Prop :=
  match o with
  | Some r => is_number (pdr r) = true
  | None => True
  end.

(** ** The invariant of a run record *)

Definition count_ok (v : value) : bool :=
  match v with
  | VNum q => Qle_bool 0 q
  | _ => false
  end.

Definition valid_metrics (m : Metrics) : bool :=
  match pdr m, tx m, rx m with
  | VNum p, VNum t, VNum r =>
      Qle_bool 0 p && Qle_bool p 1 && Qle_bool r t
      && Qle_bool 0 t && Qle_bool 0 r
      && count_ok (ctrl_tx m) && count_ok (ctrl_rx m) && count_ok (ctrl_dropped m)
  | _, _, _ => false
  end.

(** ** What makes the reading step fail *)

(** The columns read from each of the three files. *)
Definition pdr_columns : list string := ["pdr"; "tx"; "rx"].
Definition delay_columns : list string := ["avg_delay_s"].
Definition overhead_columns : list string :=
  ["control_tx"; "control_rx"; "control_dropped"].

(** A file from which the first cell of every listed column can be read. *)
Definition usable (f : File) (cols : list string) : bool :=
  match f with
  | Csv df =>
      forallb (fun c => match column df c with
                        | Ok (_ :: _) => true
                        | _ => false
                        end) cols
  | _ => false
  end.

(** A file with a cell that is not a number in one of the listed columns. *)
Definition has_text (f : File) (cols : list string) : bool :=
  match f with
  | Csv df =>
      existsb (fun c => match column df c with
                        | Ok cells => existsb (fun v => negb (is_number v)) cells
                        | Raise _ => false
                        end) cols
  | _ => false
  end.

(** A file with no data: zero bytes, or a header and no row. *)
Definition no_data (f : File) : bool :=
  match f with
  | Missing => false
  | Empty => true
  | Malformed => false
  | Csv df => forallb (fun col => is_empty (snd col)) df
  end.

Definition is_missing (f : File) : bool :=
  match f with Missing => true | _ => false end.

(** A file that cannot give the first cell of one of the listed columns:
    it is missing, it is empty, it cannot be parsed, or one of the columns
    is absent or has no row. *)
Definition unreadable (f : File) (cols : list string) : Prop :=
  f = Missing \/ f = Empty \/ f = Malformed
  \/ exists df c, f = Csv df /\ In c cols
                  /\ (column df c = Raise KeyError \/ column df c = Ok []).

(** "Missing, empty, or has a non-numeric value in a required column". *)
Definition defective (f : File) (cols : list string) : bool :=
  is_missing f || no_data f || has_text f cols.

(** ** The delay conversion in the arithmetic of numpy *)

(** The scalar that [delay['avg_delay_s'].values[0]] is when the column is
    numeric: a binary64 float, or a 64-bit signed integer when every cell of
    the column is an integer literal. *)
Inductive np_scalar : Type :=
| Float64 (f : float)
| Int64 (z : Z).

(** Two's complement wrap-around to 64 bits. *)
Definition wrap64 (z : Z) : Z := (z + 2 ^ 63) mod 2 ^ 64 - 2 ^ 63.

(** [x * 1000] of line 61 on a numpy scalar. *)
Definition times_1000 (x : np_scalar) : np_scalar :=
  match x with
  | Float64 f => Float64 (f * 1000)%float
  | Int64 z => Int64 (wrap64 (z * 1000))
  end.


(** The rational that a finite float is. *)
Definition Q_of_float (f : float) : option Q :=
  match Prim2SF f with
  | S754_zero _ => Some 0%Q
  | S754_finite sign m e =>
      Some ((if sign then - inject_Z (Zpos m) else inject_Z (Zpos m))
            * Qpower 2 e)%Q
  | _ => None
  end.

(** The [value] that a numpy scalar is. *)
Definition value_of_scalar (x : np_scalar) : value :=
  match x with
  | Float64 f => match Q_of_float f with
                 | Some q => VNum q
                 | None => VNonFinite
                 end
  | Int64 z => VNum (inject_Z z)
  end.

(** ** Concrete simulators *)

(** The three result files with one data row each. *)
Definition artifacts (v_tx v_rx v_pdr v_delay v_ctx v_crx v_cdrop : value)
    (path : string) : File :=
  if String.eqb path pdr_csv then
    Csv [("tx", [v_tx]); ("rx", [v_rx]); ("pdr", [v_pdr])]
  else if String.eqb path delay_csv then
    Csv [("avg_delay_s", [v_delay])]
  else if String.eqb path overhead_csv then
    Csv [("control_tx", [v_ctx]); ("control_rx", [v_crx]);
         ("control_dropped", [v_cdrop])]
  else Missing.

(** A simulator without memory: it fails on the commands [fails] selects
    and always shows the files [files]. *)
Definition steady_exec (fails : Cmd -> bool) (c : Cmd) (w : unit) : Z * unit :=
  (if fails c then 1 else 0, tt).

Definition steady_file (files : string -> File) (w : unit) : string -> File :=
  files.

Definition never (c : Cmd) : bool := false.

(** The command carries [--threshold=k]. *)
Definition has_threshold (k : Z) (c : Cmd) : bool :=
  existsb (fun o => String.eqb (fst o) "threshold"
                    && match snd o with AInt z => z =? k | _ => false end)
          (options c).

Definition good_files : string -> File :=
  artifacts (VNum 1000) (VNum 910) (VNum 0.91) (VNum 0.012)
            (VNum 5000) (VNum 4000) (VNum 340).

(** The record read from [good_files]. *)
Definition good_record : Metrics :=
  mkMetrics (VNum 0.91) (VNum 1000) (VNum 910) (py_mul (VNum 0.012) 1000)
            (VNum 5000) (VNum 4000) (VNum 340).

(** Files that break the record invariant: more received than sent. *)
Definition bad_files : string -> File :=
  artifacts (VNum 10) (VNum 20) (VNum 1.5) (VNum 0.012)
            (VNum 0) (VNum 0) (VNum 0).

(** Files whose ratio cell is text. *)
Definition text_files : string -> File :=
  artifacts (VNum 10) (VNum 9) (VStr "abc") (VNum 0.012)
            (VNum 0) (VNum 0) (VNum 0).

(** A simulator that fails on threshold 30 and writes a text ratio on
    threshold 50; its state tells whether the last run wrote text. *)
Definition moody_exec (c : Cmd) (w : bool) : Z * bool :=
  (if has_threshold 30 c then 1 else 0, has_threshold 50 c).

Definition moody_file (wrote_text : bool) : string -> File :=
  if wrote_text then text_files else good_files.

Definition start : St unit := mkSt tt [].


(** A baseline whose run without attack failed, and one threshold row. *)
Definition baseline_without_rpl : list BaselineRow :=
  [ mkBaselineRow good_record "InsecRPL"; mkBaselineRow good_record "SecRPL" ].

Definition one_threshold_row : list ThreshRow :=
  [ mkThreshRow good_record "SecRPL" 5 ].

(** The command carries [--attack=false]. *)
Definition without_attack (c : Cmd) : bool :=
  existsb (fun o => String.eqb (fst o) "attack"
                    && match snd o with ABool b => negb b | _ => false end)
          (options c).

(** An [int] that parses no text. *)
Definition no_int (s : string) : option Z := None.

(** ** Figures and summary *)

(** [df.sort_values(key)], as an insertion sort that keeps the dataset
    order of rows with equal keys. *)
Fixpoint insert_by {A} (key : A -> Z) (x : A) (xs : list A) : list A :=
  match xs with
  | [] => [x]
  | y :: ys => if key x <=? key y then x :: y :: ys else y :: insert_by key x ys
  end.

Fixpoint sort_values {A} (key : A -> Z) (xs : list A) : list A :=
  match xs with
  | [] => []
  | x :: xs' => insert_by key x (sort_values key xs')
  end.

(** A curve drawn by [ax.plot]. *)
Record Series : Type := mkSeries {
  s_label : string;
  x_vals : list value;
  y_vals : list value
}.

(** What one saved figure was given: its curves, its horizontal reference
    lines ([ax.axhline]) and its bar panels ([ax.bar]). *)
Record Figure : Type := mkFigure {
  filename : string;
  series : list Series;
  hlines : list (string * value);
  bars : list (list (string * value))
}.

(** The keys of the [colors] and [markers] dicts. *)
Definition colors : list string := ["RPL"; "InsecRPL"; "SecRPL"].

Definition lookup_color (s : string) : result string :=
  if existsb (String.eqb s) colors then Ok s else Raise KeyError.

Fixpoint for_all {A} (f : A -> result unit) (xs : list A) : result unit :=
  match xs with
  | [] => Ok tt
  | x :: xs' => (_ <-- f x ;; for_all f xs')%res
  end.

Definition savefig (f : Figure) : M (list Figure) unit :=
  fun saved => (Ok tt, saved ++ [f]).

(** [1.0 / data['attack_pps'].values], element by element. *)
Definition period (pps : Z) : value :=
  if pps =? 0 then VNonFinite else VNum (1 / inject_Z pps).

Section Reporting.

(** Python's [int] on a [str]: the integer it parses, if any. *)
Variable int_of_str : string -> option Z.

(** [int(v)].  On a value that is not finite [int] raises [ValueError]
    (nan) or [OverflowError] (inf); as the two are not told apart in
    [value], the model raises [ValueError] for both. *)
Definition py_int (v : value) : result Z :=
  match v with
  | VNum q => Ok (Z.quot (Qnum q) (Zpos (Qden q)))   (* towards zero *)
  | VNonFinite => Raise ValueError
  | VStr s => match int_of_str s with
              | Some z => Ok z
              | None => Raise ValueError
              end
  end.

(** The loop body shared by graphs 1 to 3: the curve of one scenario,
    drawn only when the scenario has rows. *)
Definition scenario_series (freq_df : list FreqRow) (y : Metrics -> value)
    (scenario : string) : list Series :=
  let data :=
    sort_values attack_pps
      (filter (fun r => String.eqb (f_scenario r) scenario) freq_df) in
  if negb (is_empty data) then
    [ mkSeries scenario (map (fun r => period (attack_pps r)) data)
                        (map (fun r => y (f_metrics r)) data) ]
  else [].

Definition frequency_graph (name : string) (y : Metrics -> value)
    (freq_df : list FreqRow) : M (list Figure) unit :=
  if negb (is_empty freq_df) then
    savefig (mkFigure name
               (flat_map (scenario_series freq_df y) ["RPL"; "InsecRPL"; "SecRPL"])
               [] [])
  else ret tt.

Definition threshold_series (thresh_df : list ThreshRow) (y : Metrics -> value)
    : Series :=
  let data := sort_values threshold thresh_df in
  mkSeries "SecRPL" (map (fun r => VNum (inject_Z (threshold r))) data)
                    (map (fun r => y (t_metrics r)) data).

(** [baseline_df[baseline_df['scenario'] == s][col].values[0]] *)
Definition baseline_value (baseline_df : list BaselineRow) (s : string)
    (col : Metrics -> value) : result value :=
  values0 (map (fun r => col (b_metrics r))
               (filter (fun r => String.eqb (b_scenario r) s) baseline_df)).

Definition bar_panel (baseline_df : list BaselineRow) (col : Metrics -> value)
    : list (string * value) :=
  map (fun r => (b_scenario r, col (b_metrics r))) baseline_df.

Definition create_research_style_graphs (baseline_df : list BaselineRow)
    (freq_df : list FreqRow) (thresh_df : list ThreshRow)
    : M (list Figure) unit :=
  ((* GRAPH 1: Control Overhead vs Attack Frequency *)
   frequency_graph "figure1_dao_overhead.png" ctrl_rx freq_df ;;;
   (* GRAPH 2: Downward PDR vs Attack Frequency *)
   frequency_graph "figure2_pdr_vs_frequency.png" pdr freq_df ;;;
   (* GRAPH 3: Delay vs Attack Frequency *)
   frequency_graph "figure3_delay_vs_frequency.png" delay_ms freq_df ;;;
   (* GRAPH 4: PDR vs Threshold (DAOMax) *)
   (if negb (is_empty thresh_df) then
      lines <-
        (if negb (is_empty baseline_df) then
           rpl_pdr <- check (baseline_value baseline_df "RPL" pdr) ;;
           insec_pdr <- check (baseline_value baseline_df "InsecRPL" pdr) ;;
           ret [("RPL (Baseline)", rpl_pdr); ("InsecRPL", insec_pdr)]
         else ret []) ;;
      savefig (mkFigure "figure4_pdr_vs_threshold.png"
                 [threshold_series thresh_df pdr] lines [])
    else ret tt) ;;;
   (* GRAPH 5: Control Overhead vs Threshold *)
   (if negb (is_empty thresh_df) then
      savefig (mkFigure "figure5_overhead_vs_threshold.png"
                 [threshold_series thresh_df ctrl_rx] [] [])
    else ret tt) ;;;
   (* GRAPH 6: Comparative Bar Chart *)
   (if negb (is_empty baseline_df) then
      let scenarios := map b_scenario baseline_df in
      let pdr_vals := map (fun r => pdr (b_metrics r)) baseline_df in
      let delay_vals := map (fun r => delay_ms (b_metrics r)) baseline_df in
      let ctrl_vals := map (fun r => ctrl_rx (b_metrics r)) baseline_df in
      check (for_all (fun s => _ <-- lookup_color s ;; Ok tt) scenarios)%res ;;;
      check (for_all format_f pdr_vals) ;;;
      check (for_all (fun s => _ <-- lookup_color s ;; Ok tt) scenarios)%res ;;;
      check (for_all format_f delay_vals) ;;;
      check (for_all (fun s => _ <-- lookup_color s ;; Ok tt) scenarios)%res ;;;
      check (for_all (fun v => _ <-- py_int v ;; Ok tt) ctrl_vals)%res ;;;
      savefig (mkFigure "figure6_comparison.png" [] []
                 [ bar_panel baseline_df pdr;
                   bar_panel baseline_df delay_ms;
                   bar_panel baseline_df ctrl_rx ])
    else ret tt))%m.

Record SummaryReport : Type := mkSummaryReport {
  improvement : value;
  degradation : value;
  blocked : Z
}.

(** ['s' in baseline_df['scenario'].values] *)
Definition has_scenario (baseline_df : list BaselineRow) (s : string) : bool :=
  existsb (fun r => String.eqb (b_scenario r) s) baseline_df.

(** The key findings that [print_summary_table] prints, or [None] when it
    prints none. *)
Definition print_summary_table (baseline_df : list BaselineRow)
    (freq_df : list FreqRow) (thresh_df : list ThreshRow)
    : result (option SummaryReport) :=
  if negb (is_empty baseline_df) then
    if has_scenario baseline_df "InsecRPL" && has_scenario baseline_df "SecRPL"
    then
      (insec_pdr <-- baseline_value baseline_df "InsecRPL" pdr ;;
       sec_pdr <-- baseline_value baseline_df "SecRPL" pdr ;;
       diff <-- py_sub sec_pdr insec_pdr ;;
       ratio <-- py_div diff insec_pdr ;;
       let improvement := py_mul ratio 100 in
       _ <-- format_f improvement ;;
       drop <-- py_sub (VNum 1) insec_pdr ;;
       let degradation := py_mul drop 100 in
       _ <-- format_f degradation ;;
       blocked <-- baseline_value baseline_df "SecRPL" ctrl_dropped ;;
       blocked <-- py_int blocked ;;
       Ok (Some (mkSummaryReport improvement degradation blocked)))%res
    else Ok None
  else Ok None.

End Reporting.

(** ** The whole run *)

Definition SCRATCH_PATH := String.append NS3_PATH "/scratch".
Definition RESULTS_DIR := String.append NS3_PATH "/paper_graphs".
Definition code_file := String.append SCRATCH_PATH "/ns3_rpl_dao_mitigation.cc".

(** What [to_csv] was given. *)
Inductive Dataset : Type :=
| BaselineData (df : list BaselineRow)
| FrequencyData (df : list FreqRow)
| ThresholdData (df : list ThreshRow).

Section Main.

Variable W : Type.
Variable exec : Cmd -> W -> Z * W.
Variable file : W -> string -> File.

(** [os.path.exists] *)
Variable path_exists : W -> string -> bool.

Variable int_of_str : string -> option Z.

(** The state of a run of [main]: the simulator with its log, the raw data
    files written, the figures saved and the key findings printed. *)
Record Session : Type := mkSession {
  driver : St W;
  csv_files : list (string * Dataset);
  figures : list Figure;
  findings : option SummaryReport
}.

Definition in_driver {A} (c : M (St W) A) : M Session A :=
  fun s =>
    let (r, st') := c (driver s) in
    (r, mkSession st' (csv_files s) (figures s) (findings s)).

Definition in_figures {A} (c : M (list Figure) A) : M Session A :=
  fun s =>
    let (r, saved) := c (figures s) in
    (r, mkSession (driver s) (csv_files s) saved (findings s)).

(** [df.to_csv(path, index=False)] *)
Definition to_csv (df : Dataset) (path : string) : M Session unit :=
  fun s =>
    (Ok tt, mkSession (driver s) (csv_files s ++ [(path, df)]) (figures s)
                      (findings s)).

(** The key findings that reach the console. *)
Definition show (o : option SummaryReport) : M Session unit :=
  fun s =>
    (Ok tt, mkSession (driver s) (csv_files s) (figures s)
                      match o with Some r => Some r | None => findings s end).

Definition main : M Session unit :=
  fun s =>
    (* Check if code exists in scratch *)
    if negb (path_exists (world (driver s)) code_file) then (Ok tt, s)
    else
      ((* Collect all data *)
       baseline_df <- in_driver (collect_baseline_data exec file) ;;
       freq_df <- in_driver (collect_attack_frequency_data exec file) ;;
       thresh_df <- in_driver (collect_threshold_data exec file) ;;
       (* Save raw data *)
       to_csv (BaselineData baseline_df)
              (String.append RESULTS_DIR "/baseline_data.csv") ;;;
       to_csv (FrequencyData freq_df)
              (String.append RESULTS_DIR "/frequency_data.csv") ;;;
       to_csv (ThresholdData thresh_df)
              (String.append RESULTS_DIR "/threshold_data.csv") ;;;
       (* Generate graphs *)
       in_figures (create_research_style_graphs int_of_str
                     baseline_df freq_df thresh_df) ;;;
       (* Print summary *)
       summary <- check (print_summary_table int_of_str
                           baseline_df freq_df thresh_df) ;;
       show summary)%m s.

(** A session that has done nothing yet. *)
Definition fresh (w : W) : Session := mkSession (mkSt w []) [] [] None.

End Main.

(** ** Notions used to state the properties *)

(** [xs] is [ys] with some elements left out. *)
Inductive subseq {A : Type} : list A -> list A -> Prop :=
| subseq_nil : subseq [] []
| subseq_skip : forall x xs ys, subseq xs ys -> subseq xs (x :: ys)
| subseq_keep : forall x xs ys, subseq xs ys -> subseq (x :: xs) (x :: ys).

(** The key of a row of the frequency dataset. *)
Definition frequency_key (r : FreqRow) : string * Z :=
  (f_scenario r, attack_pps r).

(** Every key the frequency sweep can store, in the order it stores them. *)
Definition frequency_keys : list (string * Z) :=
  flat_map (fun pps => [("InsecRPL", pps); ("SecRPL", pps)]) frequencies
  ++ map (fun pps => ("RPL", pps)) frequencies.

(** The cells of a record that the figures and the summary format. *)
Definition finite_metrics (r : Metrics) : bool :=
  is_finite (pdr r) && is_finite (delay_ms r) && is_finite (ctrl_rx r)
  && is_finite (ctrl_dropped r).

(** What graph 6 and the reference lines of graph 4 need of a row. *)
Definition drawable (row : BaselineRow) : Prop :=
  In (b_scenario row) colors
  /\ is_number (pdr (b_metrics row)) = true
  /\ is_number (delay_ms (b_metrics row)) = true
  /\ is_finite (ctrl_rx (b_metrics row)) = true.

(** The raw data files of a run, in the order they are written. *)
Definition raw_data (baseline_df : list BaselineRow) (freq_df : list FreqRow)
    (thresh_df : list ThreshRow) : list (string * Dataset) :=
  [ (String.append RESULTS_DIR "/baseline_data.csv", BaselineData baseline_df);
    (String.append RESULTS_DIR "/frequency_data.csv", FrequencyData freq_df);
    (String.append RESULTS_DIR "/threshold_data.csv", ThresholdData thresh_df) ].

(** A simulator that always exits with status 0 and always leaves files
    from which a record with finite numbers is read. *)
Definition well_behaved {W : Type} (exec : Cmd -> W -> Z * W)
    (file : W -> string -> File) : Prop :=
  (forall c w, fst (exec c w) = 0)
  /\ (forall w, exists r, read_results file w = Ok r
                          /\ finite_metrics r = true).

(** The names of the six figures, in the order they are saved. *)
Definition figure_names : list string :=
  [ "figure1_dao_overhead.png"; "figure2_pdr_vs_frequency.png";
    "figure3_delay_vs_frequency.png"; "figure4_pdr_vs_threshold.png";
    "figure5_overhead_vs_threshold.png"; "figure6_comparison.png" ].

(** A frequency dataset with two scenarios, not in order of rate. *)
Definition sample_freq_df : list FreqRow :=
  [ mkFreqRow good_record "SecRPL" 800; mkFreqRow good_record "InsecRPL" 400;
    mkFreqRow good_record "SecRPL" 200; mkFreqRow good_record "SecRPL" 400 ].

(** A baseline whose attack-only ratio is zero. *)
Definition zero_ratio_baseline : list BaselineRow :=
  [ mkBaselineRow (mkMetrics (VNum 0) (VNum 1000) (VNum 0) (VNum 500)
                             (VNum 9000) (VNum 9000) (VNum 0)) "InsecRPL";
    mkBaselineRow (mkMetrics (VNum 0.91) (VNum 1000) (VNum 910) (VNum 12)
                             (VNum 5000) (VNum 4000) (VNum 340)) "SecRPL" ].

(** A baseline with its three scenarios. *)
Definition full_baseline : list BaselineRow :=
  [ mkBaselineRow good_record "RPL"; mkBaselineRow good_record "InsecRPL";
    mkBaselineRow good_record "SecRPL" ].

(** A simulator that fails on every command. *)
Definition always (c : Cmd) : bool := true.

(** A file system where every path exists, and one where none does. *)
Definition all_paths (w : unit) (path : string) : bool := true.
Definition no_path (w : unit) (path : string) : bool := false.

(** * Properties *)

(** Closes a goal [(exists e, Raise _ = Raise e) <-> D] where one disjunct
    of [D] holds by computation. *)
Ltac raises :=
  split;
  [ intros _;
    first [ left; reflexivity
          | right; left; reflexivity
          | right; right; reflexivity ]
  | intros _; eexists; reflexivity ].

(** ** The result monad *)

Lemma rbind_ok {A B} (r : result A) (k : A -> result B) (b : B) :
  rbind r k = Ok b -> exists a, r = Ok a /\ k a = Ok b.
Proof.
  destruct r as [a|e]; simpl; intro H.
  - exists a. split; [reflexivity | exact H].
  - discriminate H.
Qed.

Lemma cell0_ok (df : DataFrame) (name : string) (v : value) :
  cell0 df name = Ok v -> exists rest, column df name = Ok (v :: rest).
Proof.
  unfold cell0. intro H.
  apply rbind_ok in H. destruct H as [cells [Hc Hv]].
  destruct cells as [|x rest]; simpl in Hv; [discriminate Hv|].
  injection Hv as ->. exists rest. exact Hc.
Qed.

Lemma cell0_raise (df : DataFrame) (name : string) :
  (exists e, cell0 df name = Raise e) <->
  match column df name with Ok (_ :: _) => false | _ => true end = true.
Proof.
  unfold cell0.
  destruct (column df name) as [[|x rest]|e]; simpl; split; intro H;
    try reflexivity; try discriminate H.
  - exists IndexError. reflexivity.
  - destruct H as [e H]. discriminate H.
  - exists e. reflexivity.
Qed.

Section DriverFacts.

Variable W : Type.
Variable exec : Cmd -> W -> Z * W.
Variable file : W -> string -> File.

(** *** One run *)

Lemma run_simulation_calls attack pps thr n win t (st : St W) :
  calls (snd (run_simulation exec file attack pps thr n win t st))
  = calls st ++ [build_cmd attack pps thr n win t].
Proof.
  unfold run_simulation, subprocess_run.
  destruct (exec _ (world st)) as [rc w'].
  destruct (negb (rc =? 0)); [reflexivity|].
  destruct (read_results file (world _)); reflexivity.
Qed.

Lemma run_simulation_some attack pps thr n win t (st : St W) (r : Metrics) :
  fst (run_simulation exec file attack pps thr n win t st) = Some r ->
  read_results file
    (world (snd (run_simulation exec file attack pps thr n win t st)))
  = Ok r.
Proof.
  unfold run_simulation, subprocess_run.
  destruct (exec _ (world st)) as [rc w'].
  destruct (negb (rc =? 0)); [discriminate|].
  destruct (read_results file (world _)) eqn:E; simpl; [|discriminate].
  intro H. injection H as ->. exact E.
Qed.

(** *** The reading step *)

Lemma read_results_ok (w : W) (r : Metrics) :
  read_results file w = Ok r ->
  exists p d o,
    file w pdr_csv = Csv p /\ file w delay_csv = Csv d
    /\ file w overhead_csv = Csv o
    /\ cell0 p "pdr" = Ok (pdr r) /\ cell0 p "tx" = Ok (tx r)
    /\ cell0 p "rx" = Ok (rx r)
    /\ (exists s, cell0 d "avg_delay_s" = Ok s /\ delay_ms r = py_mul s 1000)
    /\ cell0 o "control_tx" = Ok (ctrl_tx r)
    /\ cell0 o "control_rx" = Ok (ctrl_rx r)
    /\ cell0 o "control_dropped" = Ok (ctrl_dropped r).
Proof.
  unfold read_results, read_csv. intro H.
  destruct (file w pdr_csv) as [| | |p]; try discriminate H.
  destruct (file w delay_csv) as [| | |d]; try discriminate H.
  destruct (file w overhead_csv) as [| | |o]; try discriminate H.
  simpl in H.
  repeat (apply rbind_ok in H; destruct H as [? [? H]]).
  injection H as <-. simpl.
  exists p, d, o. repeat split; try assumption.
  eexists. split; [eassumption | reflexivity].
Qed.

(** The reading step raises exactly when one of the three files does not
    give the first cell of each column read from it. *)
Lemma read_results_raise (w : W) :
  (exists e, read_results file w = Raise e) <->
  usable (file w pdr_csv) pdr_columns = false
  \/ usable (file w delay_csv) delay_columns = false
  \/ usable (file w overhead_csv) overhead_columns = false.
Proof.
  unfold read_results, read_csv, usable, pdr_columns, delay_columns,
    overhead_columns, cell0.
  destruct (file w pdr_csv) as [| | |p]; try solve [raises].
  destruct (file w delay_csv) as [| | |d]; try solve [raises].
  destruct (file w overhead_csv) as [| | |o]; try solve [raises].
  simpl.
  destruct (column p "pdr") as [[|? ?]|?]; simpl; try solve [raises].
  destruct (column p "tx") as [[|? ?]|?]; simpl; try solve [raises].
  destruct (column p "rx") as [[|? ?]|?]; simpl; try solve [raises].
  destruct (column d "avg_delay_s") as [[|? ?]|?]; simpl; try solve [raises].
  destruct (column o "control_tx") as [[|? ?]|?]; simpl; try solve [raises].
  destruct (column o "control_rx") as [[|? ?]|?]; simpl; try solve [raises].
  destruct (column o "control_dropped") as [[|? ?]|?]; simpl;
    try solve [raises].
  split.
  - intros [e H]. discriminate H.
  - intros [H|[H|H]]; discriminate H.
Qed.

Lemma column_raise (df : DataFrame) (name : string) (e : pyexn) :
  column df name = Raise e -> e = KeyError.
Proof.
  induction df as [|[n cells] rest IH]; simpl.
  - intro H. injection H as <-. reflexivity.
  - destruct (String.eqb n name); [discriminate | exact IH].
Qed.

Lemma usable_false (f : File) (cols : list string) :
  usable f cols = false <-> unreadable f cols.
Proof.
  unfold usable, unreadable. destruct f as [| | |df].
  - split; [intros _; left; reflexivity | reflexivity].
  - split; [intros _; right; left; reflexivity | reflexivity].
  - split; [intros _; right; right; left; reflexivity | reflexivity].
  - split.
    + intro H. right. right. right. exists df.
      induction cols as [|c cols IH]; simpl in H; [discriminate H|].
      destruct (column df c) as [[|x xs]|e] eqn:E.
      * exists c. split; [reflexivity|]. split; [left; reflexivity|].
        right. exact E.
      * destruct (IH H) as [c' [_ [Hin Hc]]].
        exists c'. split; [reflexivity|]. split; [right; exact Hin | exact Hc].
      * exists c. split; [reflexivity|]. split; [left; reflexivity|].
        left. rewrite (column_raise _ _ E) in E. exact E.
    + intros [H|[H|[H|[df' [c [Hf [Hin Hc]]]]]]]; try discriminate H.
      injection Hf as <-.
      induction cols as [|c' cols IH]; simpl in *; [contradiction|].
      destruct Hin as [->|Hin].
      * destruct Hc as [-> | ->]; reflexivity.
      * rewrite (IH Hin). apply andb_false_r.
Qed.

(** *** C5 *)

(** C5. With [attack] false, the command that [run_simulation] runs has
    exactly the options attack, nNodes, area, rateKbps and simTime: none of
    attackerPps, attackerPkt, threshold and windowSec is among them, and
    the command is the same whatever the attack parameters are. *)
Theorem no_attack_run_forwards_no_attack_option :
  forall (attacker_pps threshold n_nodes : Z) (window : Q) (sim_time : Z)
         (st : St W),
    let cmd := build_cmd false attacker_pps threshold n_nodes window sim_time in
    calls (snd (run_simulation exec file false attacker_pps threshold n_nodes
                  window sim_time st))
    = calls st ++ [cmd]
    /\ options cmd = [ ("attack", ABool false); ("nNodes", AInt n_nodes);
                       ("area", AInt 60); ("rateKbps", AInt 16);
                       ("simTime", AInt sim_time) ]
    /\ Forall (fun k => ~ In k (keys cmd)) attack_only_keys
    /\ cmd = build_cmd false 0 0 n_nodes 0 sim_time.
Proof.
  intros. split; [apply run_simulation_calls|].
  split; [reflexivity|]. split; [|reflexivity].
  unfold attack_only_keys, keys. simpl.
  repeat constructor; intro H; simpl in H;
    repeat (destruct H as [H|H]; [discriminate H|]); exact H.
Qed.

(** *** C7 *)

(** C7, amended. After the simulator has run, [run_simulation] gives no
    record exactly when the exit status is not zero or the reading step
    raises, and the reading step raises exactly when one of the three
    files is missing, is empty, cannot be parsed, or lacks a row or a
    column that is read.  A cell that is not a number does not make it
    raise: the record holds the first cell of the pdr, tx, rx and control
    columns as it was read, and a delay cell that is text is stored
    repeated 1000 times. *)
Theorem parse_fails_iff_artifact_unreadable :
  forall (attack : bool) (attacker_pps threshold n_nodes : Z) (window : Q)
         (sim_time : Z) (st : St W),
    let cmd := build_cmd attack attacker_pps threshold n_nodes window sim_time in
    let returncode := fst (exec cmd (world st)) in
    let w := snd (exec cmd (world st)) in
    ((exists e, read_results file w = Raise e) <->
       unreadable (file w pdr_csv) pdr_columns
       \/ unreadable (file w delay_csv) delay_columns
       \/ unreadable (file w overhead_csv) overhead_columns)
    /\ (fst (run_simulation exec file attack attacker_pps threshold n_nodes
                window sim_time st) = None <->
         returncode <> 0 \/ exists e, read_results file w = Raise e)
    /\ (forall r : Metrics,
          fst (run_simulation exec file attack attacker_pps threshold n_nodes
                 window sim_time st) = Some r ->
          exists p d o : DataFrame,
            file w pdr_csv = Csv p /\ file w delay_csv = Csv d
            /\ file w overhead_csv = Csv o
            /\ cell0 p "pdr" = Ok (pdr r) /\ cell0 p "tx" = Ok (tx r)
            /\ cell0 p "rx" = Ok (rx r)
            /\ cell0 o "control_tx" = Ok (ctrl_tx r)
            /\ cell0 o "control_rx" = Ok (ctrl_rx r)
            /\ cell0 o "control_dropped" = Ok (ctrl_dropped r)
            /\ (forall t : string,
                  cell0 d "avg_delay_s" = Ok (VStr t) ->
                  delay_ms r = VStr (repeat_string t 1000))).
Proof.
  intros. split; [|split].
  - rewrite read_results_raise. rewrite !usable_false. reflexivity.
  - unfold run_simulation, subprocess_run. subst returncode w cmd.
    destruct (exec _ (world st)) as [rc w']. simpl.
    destruct (Z.eqb_spec rc 0) as [->|Hrc]; simpl.
    + destruct (read_results file w') as [r|e]; simpl; split; intro H.
      * discriminate H.
      * destruct H as [H|[e H]]; [contradiction H; reflexivity | discriminate H].
      * right. exists e. reflexivity.
      * reflexivity.
    + split; intro H; [left; exact Hrc | reflexivity].
  - intros r H.
    assert (read_results file w = Ok r) as R.
    { unfold run_simulation, subprocess_run in H. subst returncode w cmd.
      destruct (exec _ (world st)) as [rc w']. simpl in *.
      destruct (negb (rc =? 0)); [discriminate H|].
      destruct (read_results file w') as [r'|e]; [|discriminate H].
      injection H as ->. reflexivity. }
    apply read_results_ok in R.
    destruct R as (p & d & o & Fp & Fd & Fo & C1 & C2 & C3 & (s & Cs & D)
                   & C4 & C5 & C6).
    exists p, d, o. repeat (split; [assumption|]).
    intros t Ht. rewrite Ht in Cs. injection Cs as <-. rewrite D. reflexivity.
Qed.

End DriverFacts.

(** *** C6 *)

Lemma wrap64_small (y : Z) : - 2 ^ 63 <= y < 2 ^ 63 -> wrap64 y = y.
Proof.
  intro H. unfold wrap64.
  change (2 ^ 64) with (2 * 2 ^ 63) in *.
  rewrite Z.mod_small by lia. lia.
Qed.


(** On an int64 cell whose product fits in 64 bits, the exact product of
    [py_mul] is the number that numpy computes. *)
Lemma py_mul_int64_in_range (z : Z) :
  - 2 ^ 63 <= z * 1000 < 2 ^ 63 ->
  exists q q' : Q,
    py_mul (value_of_scalar (Int64 z)) 1000 = VNum q
    /\ value_of_scalar (times_1000 (Int64 z)) = VNum q'
    /\ (q == q')%Q.
Proof.
  intro H. exists (inject_Z z * inject_Z 1000)%Q, (inject_Z (z * 1000)).
  split; [reflexivity|]. split.
  - simpl. rewrite (wrap64_small H). reflexivity.
  - unfold Qeq. simpl. ring.
Qed.




(** C7 as stated fails: with a ratio cell that is text, a required column
    holds a non-numeric value and yet the reading step returns a record. *)
Lemma parse_accepts_text_counterexample :
  ~ ((exists e, read_results (steady_file text_files) tt = Raise e) <->
     defective (text_files pdr_csv) pdr_columns = true
     \/ defective (text_files delay_csv) delay_columns = true
     \/ defective (text_files overhead_csv) overhead_columns = true).
Proof.
  intros [_ H].
  destruct H as [e H]; [left; reflexivity | discriminate H].
Qed.

(** ** The three collectors against the controller of the specification *)

Lemma format_f_number (v : value) :
  is_number v = true -> format_f v = Ok tt.
Proof. destruct v; simpl; intro H; [reflexivity | reflexivity | discriminate H]. Qed.

Lemma format_f_ok (v : value) (u : unit) :
  format_f v = Ok u -> is_number v = true.
Proof. destruct v; simpl; intro H; [reflexivity | reflexivity | discriminate H]. Qed.

Lemma ok_pair_inv {S A} (a b : A) (s s' : S) :
  (Ok a, s) = (Ok b, s') -> a = b /\ s = s'.
Proof. intro H. injection H as -> ->. split; reflexivity. Qed.

Lemma present_app {K Row} (mk : Metrics -> K -> Row) xs ys :
  present mk (xs ++ ys) = present mk xs ++ present mk ys.
Proof. unfold present. apply flat_map_app. Qed.

(** One more run of the simulator, with both outcomes. *)
Ltac run_step :=
  match goal with
  | |- context [run_simulation ?e ?f ?a ?p ?t ?n ?w ?s ?st] =>
      is_var st;
      destruct (run_simulation e f a p t n w s st) as [[?|] ?]
  end.

(** The same, keeping what the run added to the log of commands. *)
Ltac run_step_calls :=
  match goal with
  | |- context [run_simulation ?e ?f ?a ?p ?t ?n ?w ?s ?st] =>
      is_var st;
      let C := fresh "C" in
      pose proof (run_simulation_calls e f a p t n w s st) as C;
      destruct (run_simulation e f a p t n w s st) as [[?|] ?];
      simpl in C
  end.

(** A ratio known to be a number is printed. *)
Ltac use_printable :=
  repeat match goal with
         | Hn : is_number (pdr ?r) = true |- _ =>
             rewrite (format_f_number _ Hn); clear Hn; simpl
         end.

(** Both outcomes of printing a ratio, in a hypothesis or in the goal. *)
Ltac split_format H :=
  match type of H with
  | context [format_f (pdr ?r)] =>
      let F := fresh "F" in
      destruct (format_f (pdr r)) eqn:F; simpl in H; try discriminate H
  end.

Ltac split_format_goal :=
  match goal with
  | |- context [format_f (pdr ?r)] => destruct (format_f (pdr r)); simpl
  end.

(** Rewrites the log of the last state back to the log of the first. *)
Ltac chain_calls :=
  repeat match goal with
         | C : calls _ = _ |- _ => rewrite C; clear C
         end;
  rewrite <- ?app_assoc; reflexivity.

Section SweepFacts.

Variable W : Type.
Variable exec : Cmd -> W -> Z * W.
Variable file : W -> string -> File.

Lemma run_all_cons (c : Combination) (cs : list Combination) (st : St W) :
  run_all exec file (c :: cs) st
  = (fst (run_combination exec file c st)
       :: fst (run_all exec file cs (snd (run_combination exec file c st))),
     snd (run_all exec file cs (snd (run_combination exec file c st)))).
Proof.
  simpl. destruct (run_combination exec file c st) as [o st1]. simpl.
  destruct (run_all exec file cs st1); reflexivity.
Qed.

Lemma run_all_app (cs1 cs2 : list Combination) (st : St W) :
  run_all exec file (cs1 ++ cs2) st
  = (fst (run_all exec file cs1 st)
       ++ fst (run_all exec file cs2 (snd (run_all exec file cs1 st))),
     snd (run_all exec file cs2 (snd (run_all exec file cs1 st)))).
Proof.
  revert st. induction cs1 as [|c cs1 IH]; intro st.
  - simpl. destruct (run_all exec file cs2 st); reflexivity.
  - rewrite <- app_comm_cons. rewrite !run_all_cons. rewrite IH. reflexivity.
Qed.

Lemma run_all_length (cs : list Combination) (st : St W) :
  List.length (fst (run_all exec file cs st)) = List.length cs.
Proof.
  revert st. induction cs as [|c cs IH]; intro st; [reflexivity|].
  rewrite run_all_cons. simpl. rewrite IH. reflexivity.
Qed.

Lemma run_all_calls (cs : list Combination) (st : St W) :
  calls (snd (run_all exec file cs st)) = calls st ++ map command_of cs.
Proof.
  revert st. induction cs as [|c cs IH]; intro st.
  - simpl. rewrite app_nil_r. reflexivity.
  - rewrite run_all_cons. simpl snd. rewrite IH.
    unfold run_combination. rewrite run_simulation_calls.
    rewrite <- app_assoc. reflexivity.
Qed.

(** Every outcome of a run is a record that the reading step returned. *)
Lemma run_all_read (cs : list Combination) (st : St W) (r : Metrics) :
  In (Some r) (fst (run_all exec file cs st)) ->
  exists w, read_results file w = Ok r.
Proof.
  revert st. induction cs as [|c cs IH]; intros st H; [contradiction H|].
  rewrite run_all_cons in H. simpl in H. destruct H as [H|H].
  - eexists. apply run_simulation_some with (1 := H).
  - apply IH with (1 := H).
Qed.

(** *** The threshold loop *)

Lemma threshold_loop (l : list Z) (acc : list ThreshRow) (st : St W) :
  let cs := map threshold_combination l in
  Forall printable (fst (run_all exec file cs st)) ->
  for_each l (threshold_step exec file) acc st
  = (Ok (acc ++ present threshold_row
                  (combine cs (fst (run_all exec file cs st)))),
     snd (run_all exec file cs st)).
Proof.
  simpl. revert acc st. induction l as [|t l IH]; intros acc st H.
  - simpl. rewrite app_nil_r. reflexivity.
  - simpl map in *. rewrite run_all_cons in *. simpl fst in *. simpl snd in *.
    inversion H as [|o os Ho Hos]; subst. clear H.
    simpl for_each. unfold bind at 1. unfold threshold_step at 1.
    unfold bind at 1. unfold total.
    unfold run_combination in *. simpl in Ho, Hos |- *.
    destruct (run_simulation exec file true 800 t 25 1 120 st) as [o st1].
    simpl in Ho, Hos |- *. destruct o as [r|].
    + unfold print_pdr, check, bind, ret. simpl in Ho.
      rewrite (format_f_number _ Ho). rewrite (IH _ _ Hos).
      rewrite <- app_assoc. reflexivity.
    + unfold ret. rewrite (IH _ _ Hos). reflexivity.
Qed.

Lemma threshold_loop_ok (l : list Z) (acc ds : list ThreshRow) (st st' : St W) :
  for_each l (threshold_step exec file) acc st = (Ok ds, st') ->
  Forall printable (fst (run_all exec file (map threshold_combination l) st)).
Proof.
  revert acc st. induction l as [|t l IH]; intros acc st H.
  - constructor.
  - simpl map. rewrite run_all_cons. simpl fst.
    simpl for_each in H. unfold bind at 1 in H. unfold threshold_step at 1 in H.
    unfold bind at 1 in H. unfold total in H.
    unfold run_combination. simpl.
    destruct (run_simulation exec file true 800 t 25 1 120 st) as [o st1].
    simpl. destruct o as [r|].
    + unfold print_pdr, check, bind, ret in H.
      destruct (format_f (pdr r)) as [u|e] eqn:F; [|discriminate H].
      constructor; [exact (format_f_ok _ F) | exact (IH _ _ H)].
    + constructor; [exact I | exact (IH _ _ H)].
Qed.

Lemma threshold_loop_calls (l : list Z) (acc : list ThreshRow) (st : St W) :
  exists n : nat,
    calls (snd (for_each l (threshold_step exec file) acc st))
    = calls st ++ map (fun t => build_cmd true 800 t 25 1 120) (firstn n l).
Proof.
  revert acc st. induction l as [|t l IH]; intros acc st.
  - exists 0%nat. simpl. rewrite app_nil_r. reflexivity.
  - simpl for_each. unfold bind at 1. unfold threshold_step at 1.
    unfold bind at 1. unfold total.
    pose proof (run_simulation_calls exec file true 800 t 25 1 120 st) as C.
    destruct (run_simulation exec file true 800 t 25 1 120 st) as [o st1].
    simpl in C. destruct o as [r|].
    + unfold print_pdr, check, bind, ret.
      destruct (format_f (pdr r)) as [u|e].
      * destruct (IH (acc ++ [mkThreshRow r "SecRPL" t]) st1) as [n Hn].
        exists (S n). rewrite Hn, C. rewrite <- app_assoc. reflexivity.
      * exists 1%nat. simpl. exact C.
    + unfold ret. destruct (IH acc st1) as [n Hn].
      exists (S n). rewrite Hn, C. rewrite <- app_assoc. reflexivity.
Qed.

(** *** The baseline *)

Lemma baseline_sweep (st : St W) :
  Forall printable (fst (run_all exec file baseline_combinations st)) ->
  collect_baseline_data exec file st
  = (Ok (present baseline_row
           (combine baseline_combinations
              (fst (run_all exec file baseline_combinations st)))),
     snd (run_all exec file baseline_combinations st)).
Proof.
  unfold baseline_combinations. rewrite !run_all_cons.
  unfold run_combination, collect_baseline_data. simpl. intro H.
  inversion H as [|? ? H1 H']; subst. inversion H' as [|? ? H2 H'']; subst.
  inversion H'' as [|? ? H3 _]; subst. clear H H' H''.
  unfold bind, total, print_pdr, check, ret.
  repeat (run_step; simpl in *; use_printable); reflexivity.
Qed.

Lemma baseline_sweep_ok (st st' : St W) (ds : list BaselineRow) :
  collect_baseline_data exec file st = (Ok ds, st') ->
  Forall printable (fst (run_all exec file baseline_combinations st)).
Proof.
  unfold baseline_combinations. rewrite !run_all_cons.
  unfold run_combination, collect_baseline_data. simpl.
  unfold bind, total, print_pdr, check, ret. intro H.
  repeat (run_step; simpl in *; try discriminate H; try split_format H).
  all: repeat constructor; simpl; eauto using format_f_ok.
Qed.

Lemma baseline_sweep_calls (st : St W) :
  exists n : nat,
    calls (snd (collect_baseline_data exec file st))
    = calls st ++ map command_of (firstn n baseline_combinations).
Proof.
  unfold collect_baseline_data, bind, total, print_pdr, check, ret.
  repeat (run_step_calls; simpl; try split_format_goal).
  all: first [ exists 3%nat; simpl; chain_calls
             | exists 2%nat; simpl; chain_calls
             | exists 1%nat; simpl; chain_calls ].
Qed.

(** *** The frequency sweep *)

Lemma frequency_loop (l : list Z) (acc : list FreqRow) (st : St W) :
  let cs := flat_map frequency_pair l in
  for_each l (frequency_step exec file) acc st
  = (Ok (acc ++ present frequency_row
                  (combine cs (fst (run_all exec file cs st)))),
     snd (run_all exec file cs st)).
Proof.
  simpl. revert acc st. induction l as [|pps l IH]; intros acc st.
  - simpl. rewrite app_nil_r. reflexivity.
  - simpl flat_map. rewrite !run_all_cons. simpl fst. simpl snd.
    simpl for_each. unfold bind at 1. unfold frequency_step at 1.
    unfold bind, total, ret, run_combination. simpl.
    repeat (run_step; simpl).
    all: rewrite IH; rewrite <- ?app_assoc; reflexivity.
Qed.

Lemma copy_loop (r : Metrics) (l : list Z) (acc : list FreqRow) (st : St W) :
  for_each l (@baseline_copy_step W r) acc st
  = (Ok (acc ++ map (fun pps => mkFreqRow r "RPL" pps) l), st).
Proof.
  revert acc. induction l as [|pps l IH]; intro acc.
  - simpl. rewrite app_nil_r. reflexivity.
  - simpl. unfold bind, baseline_copy_step, ret. rewrite IH.
    rewrite <- app_assoc. reflexivity.
Qed.

Lemma frequency_sweep (st : St W) :
  let swept := run_all exec file frequency_combinations st in
  let base := run_simulation exec file false 800 20 25 1 120 (snd swept) in
  collect_attack_frequency_data exec file st
  = (Ok (present frequency_row (combine frequency_combinations (fst swept))
         ++ broadcast (fst base)),
     snd base).
Proof.
  cbv zeta. unfold collect_attack_frequency_data, bind.
  rewrite frequency_loop. fold frequency_combinations. rewrite app_nil_l.
  unfold total.
  destruct (run_simulation exec file false 800 20 25 1 120
              (snd (run_all exec file frequency_combinations st)))
    as [[r|] st'].
  - rewrite copy_loop. reflexivity.
  - unfold ret, broadcast, fst, snd. rewrite app_nil_r. reflexivity.
Qed.

(** *** What a dataset holds *)

Lemma present_in {K Row} (mk : Metrics -> K -> Row) (ks : list K)
    (os : list (option Metrics)) (row : Row) :
  In row (present mk (combine ks os)) ->
  exists k r, In k ks /\ In (Some r) os /\ row = mk r k.
Proof.
  unfold present. rewrite in_flat_map. intros [[k o] [Hin Hrow]].
  simpl in Hrow. destruct o as [r|]; [|contradiction Hrow].
  destruct Hrow as [<-|[]].
  exists k, r. split; [exact (in_combine_l _ _ _ _ Hin)|].
  split; [exact (in_combine_r _ _ _ _ Hin) | reflexivity].
Qed.

End SweepFacts.

(** ** The sweeps: the claims *)

Section SweepClaims.

Variable W : Type.
Variable exec : Cmd -> W -> Z * W.
Variable file : W -> string -> File.

(** C4, amended. The baseline runs three combinations, in this order: no
    attack; attack with threshold 1000000000; attack with threshold 20,
    provided that the ratio of every record read is a number, so that the
    progress line can print it.  The dataset then holds one row for each
    run that gave a record, labelled RPL, InsecRPL and SecRPL in that order,
    and nothing else. *)
Theorem baseline_runs_three_labelled_combinations :
  forall (st : St W),
    let r1 := run_simulation exec file false 800 20 25 1 120 st in
    let r2 := run_simulation exec file true 800 1000000000 25 1 120 (snd r1) in
    let r3 := run_simulation exec file true 800 20 25 1 120 (snd r2) in
    printable (fst r1) -> printable (fst r2) -> printable (fst r3) ->
    collect_baseline_data exec file st
    = (Ok (labelled "RPL" (fst r1) ++ labelled "InsecRPL" (fst r2)
           ++ labelled "SecRPL" (fst r3)),
       snd r3)
    /\ calls (snd r3)
       = calls st ++ [ build_cmd false 800 20 25 1 120;
                       build_cmd true 800 1000000000 25 1 120;
                       build_cmd true 800 20 25 1 120 ]
    /\ run_all exec file baseline_combinations st
       = ([fst r1; fst r2; fst r3], snd r3).
Proof.
  intros st r1 r2 r3 P1 P2 P3.
  assert (run_all exec file baseline_combinations st
          = ([fst r1; fst r2; fst r3], snd r3)) as R.
  { unfold baseline_combinations. rewrite !run_all_cons. reflexivity. }
  split; [|split; [|exact R]].
  - rewrite baseline_sweep.
    + rewrite R. simpl.
      destruct (fst r1), (fst r2), (fst r3); reflexivity.
    + rewrite R. simpl. repeat constructor; assumption.
  - subst r3 r2 r1. rewrite !run_simulation_calls.
    rewrite <- !app_assoc. reflexivity.
Qed.

(** C1, amended. When exactly one of the five runs of the threshold sweep,
    the one for threshold [k], gives no record, and the ratio of every
    record read is a number, so that the progress line can print it, the
    sweep raises nothing and returns four rows: those
    of the other four thresholds, in order, each labelled SecRPL; for
    [k = 30] these are 5, 10, 20, 50.  All five commands were run. *)
Theorem threshold_sweep_survives_one_failure :
  forall (st : St W) (k : Z),
    let cs := map threshold_combination thresholds in
    let outs := fst (run_all exec file cs st) in
    In k thresholds ->
    Forall2 (fun t o => (o = None <-> t = k) /\ printable o) thresholds outs ->
    exists ds : list ThreshRow,
      collect_threshold_data exec file st
      = (Ok ds, snd (run_all exec file cs st))
      /\ ds = present threshold_row (combine cs outs)
      /\ List.length ds = 4%nat
      /\ map threshold ds = filter (fun t => negb (t =? k)) thresholds
      /\ (k = 30 -> map threshold ds = [5; 10; 20; 50])
      /\ Forall (fun r => t_scenario r = "SecRPL") ds
      /\ calls (snd (run_all exec file cs st))
         = calls st ++ map (fun t => build_cmd true 800 t 25 1 120) thresholds.
Proof.
  intros st k cs outs Hk H.
  assert (Forall printable outs) as Hp.
  { clear Hk. induction H as [|t o ts os [_ Ho] _ IH]; constructor; assumption. }
  exists (present threshold_row (combine cs outs)).
  split; [exact (threshold_loop exec file thresholds [] st Hp)|].
  split; [reflexivity|].
  assert (calls (snd (run_all exec file cs st))
          = calls st ++ map (fun t => build_cmd true 800 t 25 1 120) thresholds)
    as Hc.
  { rewrite run_all_calls. unfold cs. rewrite map_map. reflexivity. }
  clearbody outs. unfold thresholds in H, Hk.
  repeat match goal with
         | F : Forall2 _ (_ :: _) _ |- _ => inversion F; subst; clear F
         | F : Forall2 _ [] _ |- _ => inversion F; subst; clear F
         end.
  repeat match goal with
         | F : (?o = None <-> _) /\ _ |- _ => destruct F as [[? ?] _]
         end.
  simpl in Hk.
  repeat (destruct Hk as [Hk|Hk]; [subst k|]); [ .. | contradiction Hk].
  all: repeat match goal with
              | o : option Metrics |- _ => destruct o
              end.
  all: try match goal with
           | F : None = None -> _ = _ |- _ =>
               specialize (F eq_refl); discriminate F
           end.
  all: try match goal with
           | F : ?t = ?t -> Some _ = None |- _ =>
               specialize (F eq_refl); discriminate F
           end.
  all: simpl; repeat split; try reflexivity; try exact Hc;
    try (intro; discriminate); repeat constructor.
Qed.

Lemma present_length {K Row} (mk : Metrics -> K -> Row) (ks : list K)
    (os : list (option Metrics)) :
  List.length ks = List.length os ->
  Forall (fun o => o <> None) os ->
  List.length (present mk (combine ks os)) = List.length os.
Proof.
  revert os. induction ks as [|k ks IH]; intros [|o os] L H;
    try discriminate L; [reflexivity|].
  inversion H as [|? ? Ho Hos]; subst.
  destruct o as [r|]; [|contradiction Ho; reflexivity].
  simpl. f_equal. apply IH; [|exact Hos].
  simpl in L. injection L as L. exact L.
Qed.

(** C2. The frequency sweep runs, for the rates 200, 400, 600, 800, 1000
    in that order, an attack with threshold 1000000000 and an attack with
    threshold 20, and then a single run without attack: eleven commands.
    It raises nothing.  The dataset is the rows of the attack runs that
    gave a record, followed by the record of the one run without attack
    copied once per rate under the label RPL; when every run gives a
    record the dataset has 15 rows. *)
Theorem frequency_sweep_broadcasts_one_baseline_run :
  forall (st : St W),
    let swept := run_all exec file frequency_combinations st in
    let base := run_simulation exec file false 800 20 25 1 120 (snd swept) in
    collect_attack_frequency_data exec file st
    = (Ok (present frequency_row (combine frequency_combinations (fst swept))
           ++ broadcast (fst base)),
       snd base)
    /\ calls (snd base)
       = calls st
         ++ flat_map (fun pps => [ build_cmd true pps 1000000000 25 1 120;
                                   build_cmd true pps 20 25 1 120 ])
                     [200; 400; 600; 800; 1000]
         ++ [build_cmd false 800 20 25 1 120]
    /\ broadcast (fst base)
       = match fst base with
         | Some r => [ mkFreqRow r "RPL" 200; mkFreqRow r "RPL" 400;
                       mkFreqRow r "RPL" 600; mkFreqRow r "RPL" 800;
                       mkFreqRow r "RPL" 1000 ]
         | None => []
         end
    /\ (Forall (fun o => o <> None) (fst swept) -> fst base <> None ->
        exists ds, fst (collect_attack_frequency_data exec file st) = Ok ds
                   /\ List.length ds = 15%nat).
Proof.
  intros st swept base.
  pose proof (frequency_sweep exec file st) as E. cbv zeta in E.
  fold swept in E. fold base in E.
  split; [exact E|]. split; [|split].
  - subst base. rewrite run_simulation_calls. subst swept.
    rewrite run_all_calls. rewrite <- app_assoc. reflexivity.
  - destruct (fst base); reflexivity.
  - intros Hs Hb. rewrite E. eexists. split; [reflexivity|].
    rewrite length_app. rewrite present_length; [| |exact Hs].
    + subst swept. rewrite run_all_length.
      destruct (fst base) as [r|]; [reflexivity | contradiction Hb; reflexivity].
    + subst swept. rewrite run_all_length. reflexivity.
Qed.

(** C8, amended. The collectors store the records as the reading step
    returned them.  So when every record that the reading step can return
    has its ratio in [0,1], no more packets received than sent and no
    negative count, every row of each of the three datasets has. *)
Theorem stored_records_are_the_records_read :
  forall (st : St W),
    (forall w r, read_results file w = Ok r -> valid_metrics r = true) ->
    (forall ds st', collect_baseline_data exec file st = (Ok ds, st') ->
       Forall (fun row => (exists w, read_results file w = Ok (b_metrics row))
                          /\ valid_metrics (b_metrics row) = true) ds)
    /\ (forall ds st', collect_attack_frequency_data exec file st = (Ok ds, st') ->
       Forall (fun row => (exists w, read_results file w = Ok (f_metrics row))
                          /\ valid_metrics (f_metrics row) = true) ds)
    /\ (forall ds st', collect_threshold_data exec file st = (Ok ds, st') ->
       Forall (fun row => (exists w, read_results file w = Ok (t_metrics row))
                          /\ valid_metrics (t_metrics row) = true) ds).
Proof.
  intros st Hvalid.
  assert (forall r, (exists w, read_results file w = Ok r) ->
                    (exists w, read_results file w = Ok r)
                    /\ valid_metrics r = true) as Both.
  { intros r [w Hw]. split; [exists w; exact Hw | exact (Hvalid w r Hw)]. }
  split; [|split]; intros ds st' H; apply Forall_forall; intros row Hrow.
  - pose proof (baseline_sweep_ok exec file st H) as Hp.
    rewrite (baseline_sweep exec file st Hp) in H.
    apply ok_pair_inv in H. destruct H as [<- _].
    apply present_in in Hrow. destruct Hrow as (c & r & _ & Hr & ->).
    apply Both. exact (run_all_read exec file _ _ r Hr).
  - rewrite frequency_sweep in H. apply ok_pair_inv in H. destruct H as [<- _].
    apply in_app_or in Hrow. destruct Hrow as [Hrow|Hrow].
    + apply present_in in Hrow. destruct Hrow as (c & r & _ & Hr & ->).
      apply Both. exact (run_all_read exec file _ _ r Hr).
    + unfold broadcast in Hrow.
      destruct (fst (run_simulation exec file false 800 20 25 1 120 _))
        as [r|] eqn:E; [|contradiction Hrow].
      apply in_map_iff in Hrow. destruct Hrow as (pps & <- & _).
      apply Both. eexists. exact (run_simulation_some exec file _ _ _ _ _ _ _ E).
  - unfold collect_threshold_data in H.
    pose proof (threshold_loop_ok exec file _ _ _ H) as Hp.
    rewrite (threshold_loop exec file thresholds [] st Hp) in H.
    apply ok_pair_inv in H. destruct H as [<- _].
    apply present_in in Hrow. destruct Hrow as (c & r & _ & Hr & ->).
    apply Both. exact (run_all_read exec file _ _ r Hr).
Qed.

(** C10. Every command of the threshold sweep is the attack command with
    attackerPps 800, attackerPkt 120, windowSec 1.0, nNodes 25, area 60,
    rateKbps 16 and simTime 120; the commands are those of the thresholds
    5, 10, 20, 30, 50 in order (all five when the sweep returns), and
    differ in the threshold alone.  In the baseline and in the frequency
    sweep the attack-only run carries the threshold 1000000000. *)
Theorem threshold_sweep_varies_the_threshold_alone :
  forall (st : St W),
    let threshold_cmd (t : Z) :=
      mkCmd "./ns3 run ns3_rpl_dao_mitigation"
        [ ("attack", ABool true); ("attackerPps", AInt 800);
          ("attackerPkt", AInt 120); ("threshold", AInt t);
          ("windowSec", AFloat 1); ("nNodes", AInt 25);
          ("area", AInt 60); ("rateKbps", AInt 16); ("simTime", AInt 120) ] in
    let attack_cmd (pps t : Z) :=
      mkCmd "./ns3 run ns3_rpl_dao_mitigation"
        [ ("attack", ABool true); ("attackerPps", AInt pps);
          ("attackerPkt", AInt 120); ("threshold", AInt t);
          ("windowSec", AFloat 1); ("nNodes", AInt 25);
          ("area", AInt 60); ("rateKbps", AInt 16); ("simTime", AInt 120) ] in
    let no_attack_cmd :=
      mkCmd "./ns3 run ns3_rpl_dao_mitigation"
        [ ("attack", ABool false); ("nNodes", AInt 25);
          ("area", AInt 60); ("rateKbps", AInt 16); ("simTime", AInt 120) ] in
    (exists n : nat,
       calls (snd (collect_threshold_data exec file st))
       = calls st ++ map threshold_cmd (firstn n [5; 10; 20; 30; 50]))
    /\ (forall ds st', collect_threshold_data exec file st = (Ok ds, st') ->
        calls st' = calls st ++ map threshold_cmd [5; 10; 20; 30; 50])
    /\ (exists n : nat,
          calls (snd (collect_baseline_data exec file st))
          = calls st ++ firstn n [ no_attack_cmd;
                                   attack_cmd 800 1000000000;
                                   attack_cmd 800 20 ])
    /\ calls (snd (collect_attack_frequency_data exec file st))
       = calls st
         ++ flat_map (fun pps => [ attack_cmd pps 1000000000;
                                   attack_cmd pps 20 ])
                     [200; 400; 600; 800; 1000]
         ++ [no_attack_cmd].
Proof.
  intros st threshold_cmd attack_cmd no_attack_cmd.
  split; [|split; [|split]].
  - exact (threshold_loop_calls exec file thresholds [] st).
  - intros ds st' H. unfold collect_threshold_data in H.
    pose proof (threshold_loop_ok exec file _ _ _ H) as Hp.
    rewrite (threshold_loop exec file thresholds [] st Hp) in H.
    apply ok_pair_inv in H. destruct H as [_ <-].
    rewrite run_all_calls. rewrite map_map. reflexivity.
  - destruct (baseline_sweep_calls exec file st) as [n Hn].
    exists n. rewrite Hn. rewrite <- firstn_map. reflexivity.
  - pose proof (frequency_sweep exec file st) as E. cbv zeta in E.
    rewrite E. unfold snd at 1. rewrite run_simulation_calls.
    rewrite run_all_calls. rewrite <- app_assoc. reflexivity.
Qed.

End SweepClaims.

(** C4 on a simulator that never fails and writes [good_files]. *)
Lemma baseline_runs_three_labelled_combinations_witness :
  collect_baseline_data (steady_exec never) (steady_file good_files) start
  = (Ok [ mkBaselineRow good_record "RPL";
          mkBaselineRow good_record "InsecRPL";
          mkBaselineRow good_record "SecRPL" ],
     mkSt tt [ build_cmd false 800 20 25 1 120;
               build_cmd true 800 1000000000 25 1 120;
               build_cmd true 800 20 25 1 120 ]).
Proof.
  exact (proj1 (@baseline_runs_three_labelled_combinations unit
                  (steady_exec never) (steady_file good_files) start
                  eq_refl eq_refl eq_refl)).
Defined.

(** C4 as stated fails: on a simulator that never fails and writes a ratio
    that is text, the first run gives a record, the progress line raises
    ValueError, and the two attack combinations are never run. *)
Lemma baseline_stops_on_a_text_ratio_counterexample :
  let r1 := run_simulation (steady_exec never) (steady_file text_files)
              false 800 20 25 1 120 start in
  let run := collect_baseline_data (steady_exec never)
               (steady_file text_files) start in
  fst r1 <> None
  /\ fst run = Raise ValueError
  /\ calls (snd run) = [build_cmd false 800 20 25 1 120].
Proof.
  cbv zeta. split; [|split].
  - vm_compute. discriminate.
  - reflexivity.
  - reflexivity.
Qed.

(** C1, amended, on a simulator that fails on threshold 30 alone. *)
Lemma threshold_sweep_survives_one_failure_witness :
  exists ds : list ThreshRow,
    fst (collect_threshold_data (steady_exec (has_threshold 30))
           (steady_file good_files) start) = Ok ds
    /\ map threshold ds = [5; 10; 20; 50]
    /\ List.length ds = 4%nat.
Proof.
  destruct (@threshold_sweep_survives_one_failure unit
              (steady_exec (has_threshold 30)) (steady_file good_files)
              start 30) as (ds & E & _ & L & _ & H30 & _).
  - simpl. tauto.
  - cbv. repeat constructor; first [discriminate | reflexivity].
  - exists ds. rewrite E. split; [reflexivity|].
    split; [exact (H30 eq_refl) | exact L].
Defined.

(** C1 as stated fails: the simulator fails on threshold 30 alone and
    writes a ratio that is text on threshold 50.  Exactly one of the five
    runs gives no record, and the sweep raises ValueError when it prints
    the ratio of the last one. *)
Lemma one_failure_and_a_text_ratio_counterexample :
  let outs := fst (run_all moody_exec moody_file
                     (map threshold_combination thresholds)
                     (mkSt false [])) in
  Forall2 (fun t o => o = None <-> t = 30) thresholds outs
  /\ fst (collect_threshold_data moody_exec moody_file (mkSt false []))
     = Raise ValueError.
Proof.
  cbv zeta. split; [|reflexivity].
  vm_compute.
  repeat (constructor;
          [split; intro H; first [discriminate H | reflexivity]|]).
  constructor.
Qed.

(** C2 on a simulator that never fails. *)
Lemma frequency_sweep_broadcasts_one_baseline_run_witness :
  exists ds : list FreqRow,
    fst (collect_attack_frequency_data (steady_exec never)
           (steady_file good_files) start) = Ok ds
    /\ List.length ds = 15%nat.
Proof.
  apply (proj2 (proj2 (proj2
           (@frequency_sweep_broadcasts_one_baseline_run unit
              (steady_exec never) (steady_file good_files) start)))).
  - cbv. repeat constructor; discriminate.
  - cbv. discriminate.
Defined.

(** C8 as stated fails: the simulator writes ratio 1.5 with 20 packets
    received of 10 sent, and the baseline dataset stores that record. *)
Lemma stored_record_breaks_invariant_counterexample :
  ~ (forall ds st',
       collect_baseline_data (steady_exec never) (steady_file bad_files) start
       = (Ok ds, st') ->
       Forall (fun row => valid_metrics (b_metrics row) = true) ds).
Proof.
  intro H. specialize (H _ _ eq_refl).
  inversion H as [|row rows Hrow _]. discriminate Hrow.
Qed.

(** C8, amended, on files that satisfy the invariant. *)
Lemma stored_records_are_the_records_read_witness :
  Forall (fun row => (exists w, read_results (steady_file good_files) w
                                = Ok (t_metrics row))
                     /\ valid_metrics (t_metrics row) = true)
         [ mkThreshRow good_record "SecRPL" 5;
           mkThreshRow good_record "SecRPL" 10;
           mkThreshRow good_record "SecRPL" 20;
           mkThreshRow good_record "SecRPL" 50 ].
Proof.
  refine (proj2 (proj2 (@stored_records_are_the_records_read unit
                          (steady_exec (has_threshold 30))
                          (steady_file good_files) start _)) _ _ eq_refl).
  intros w r H. injection H as <-. reflexivity.
Defined.

(** C10 on a simulator that never fails. *)
Lemma threshold_sweep_varies_the_threshold_alone_witness :
  calls (snd (collect_threshold_data (steady_exec never)
                (steady_file good_files) start))
  = map (fun t => build_cmd true 800 t 25 1 120) [5; 10; 20; 30; 50].
Proof.
  exact (proj1 (proj2 (@threshold_sweep_varies_the_threshold_alone unit
                         (steady_exec never) (steady_file good_files) start))
           _ _ eq_refl).
Defined.

(** ** The summary and the figures *)

Lemma has_scenario_value (df : list BaselineRow) (s : string)
    (col : Metrics -> value) (v : value) :
  baseline_value df s col = Ok v -> has_scenario df s = true.
Proof.
  unfold baseline_value, has_scenario.
  induction df as [|r df IH]; simpl; [discriminate|].
  destruct (String.eqb (b_scenario r) s); simpl; [reflexivity | exact IH].
Qed.

Lemma value_of_scenario (df : list BaselineRow) (s : string)
    (col : Metrics -> value) :
  has_scenario df s = true -> exists v, baseline_value df s col = Ok v.
Proof.
  unfold baseline_value, has_scenario.
  induction df as [|r df IH]; simpl; [discriminate|].
  destruct (String.eqb (b_scenario r) s); simpl; [|exact IH].
  intros _. eexists. reflexivity.
Qed.

Lemma no_value_without_scenario (df : list BaselineRow) (s : string)
    (col : Metrics -> value) :
  has_scenario df s = false -> baseline_value df s col = Raise IndexError.
Proof.
  unfold baseline_value, has_scenario.
  induction df as [|r df IH]; simpl; [reflexivity|].
  destruct (String.eqb (b_scenario r) s); simpl; [discriminate | exact IH].
Qed.

Section ReportingFacts.

Variable int_of_str : string -> option Z.


(** C9, the failing case. With a threshold dataset and a baseline dataset
    that are not empty, a baseline without an RPL row, or with an RPL row
    and without an InsecRPL row, makes the fourth figure raise
    [IndexError]; figures 4 to 6 are not saved. *)
Theorem threshold_chart_raises_without_baseline_label :
  forall (baseline_df : list BaselineRow) (freq_df : list FreqRow)
         (thresh_df : list ThreshRow) (saved : list Figure),
    is_empty baseline_df = false ->
    is_empty thresh_df = false ->
    has_scenario baseline_df "RPL" && has_scenario baseline_df "InsecRPL"
    = false ->
    exists saved',
      create_research_style_graphs int_of_str baseline_df freq_df thresh_df
        saved
      = (Raise IndexError, saved')
      /\ Forall (fun f => filename f <> "figure4_pdr_vs_threshold.png"
                          /\ filename f <> "figure5_overhead_vs_threshold.png"
                          /\ filename f <> "figure6_comparison.png")
                (skipn (List.length saved) saved').
Proof.
  intros baseline_df freq_df thresh_df saved Hb Ht Hl.
  unfold create_research_style_graphs, frequency_graph, bind, check, ret,
    savefig.
  rewrite Hb, Ht. simpl negb. cbv iota.
  assert (exists v,
            baseline_value baseline_df "RPL" pdr = Raise IndexError
            \/ (baseline_value baseline_df "RPL" pdr = Ok v
                /\ baseline_value baseline_df "InsecRPL" pdr = Raise IndexError))
    as [v Hv].
  { destruct (has_scenario baseline_df "RPL") eqn:R.
    - destruct (value_of_scenario baseline_df "RPL" pdr R) as [v Hv].
      exists v. right. split; [exact Hv|].
      apply no_value_without_scenario. exact Hl.
    - exists VNonFinite. left. apply no_value_without_scenario. exact R. }
  destruct (negb (is_empty freq_df)).
  - eexists. split.
    + destruct Hv as [-> | [-> ->]]; reflexivity.
    + rewrite <- !app_assoc. rewrite skipn_app, Nat.sub_diag, skipn_all.
      simpl. repeat constructor; discriminate.
  - eexists. split.
    + destruct Hv as [-> | [-> ->]]; reflexivity.
    + rewrite skipn_all. constructor.
Qed.

(** With an empty baseline no figure raises: the reference lines of the
    fourth figure and the bar chart are skipped. *)
Lemma figures_without_baseline (freq_df : list FreqRow)
    (thresh_df : list ThreshRow) (saved : list Figure) :
  fst (create_research_style_graphs int_of_str [] freq_df thresh_df saved)
  = Ok tt.
Proof.
  unfold create_research_style_graphs, frequency_graph, bind, check, ret,
    savefig.
  destruct (negb (is_empty freq_df)), (negb (is_empty thresh_df)); reflexivity.
Qed.

End ReportingFacts.


(** C9 on a baseline whose run without attack failed. *)
Lemma threshold_chart_raises_without_baseline_label_witness :
  fst (create_research_style_graphs no_int baseline_without_rpl []
         one_threshold_row [])
  = Raise IndexError.
Proof.
  destruct (threshold_chart_raises_without_baseline_label no_int
              baseline_without_rpl [] one_threshold_row []
              eq_refl eq_refl eq_refl) as (saved' & E & _).
  rewrite E. reflexivity.
Defined.

(** A ratio cell that is text is read without complaint (C7) and then makes
    the progress line of the threshold sweep raise, after one run. *)
Example text_ratio_stops_the_threshold_sweep :
  collect_threshold_data (steady_exec never) (steady_file text_files) start
  = (Raise ValueError, mkSt tt [build_cmd true 800 5 25 1 120]).
Proof. reflexivity. Qed.

(** The failing case of C9 is reached by the driver itself: when the
    simulator fails on the runs without attack and on no other, the baseline
    has the rows InsecRPL and SecRPL, the threshold dataset has its five
    rows, and drawing the figures from them raises. *)
Example figures_raise_after_failed_no_attack_run :
  exists (baseline_df : list BaselineRow) (thresh_df : list ThreshRow) st1 st2,
    collect_baseline_data (steady_exec without_attack) (steady_file good_files)
      start = (Ok baseline_df, st1)
    /\ collect_threshold_data (steady_exec without_attack)
         (steady_file good_files) st1 = (Ok thresh_df, st2)
    /\ baseline_df = baseline_without_rpl
    /\ List.length thresh_df = 5%nat
    /\ fst (create_research_style_graphs no_int baseline_df [] thresh_df [])
       = Raise IndexError.
Proof.
  do 4 eexists. split; [reflexivity|]. split; [reflexivity|].
  split; [reflexivity|]. split; reflexivity.
Qed.

(** * Further properties of the driver *)

(** ** Sub-sequences *)

Lemma subseq_nil_l {A} (ys : list A) : subseq [] ys.
Proof. induction ys; constructor; assumption. Qed.

Lemma subseq_refl {A} (xs : list A) : subseq xs xs.
Proof. induction xs; [constructor | apply subseq_keep; assumption]. Qed.

Lemma subseq_app {A} (xs1 xs2 ys1 ys2 : list A) :
  subseq xs1 ys1 -> subseq xs2 ys2 -> subseq (xs1 ++ xs2) (ys1 ++ ys2).
Proof.
  intros H1 H2.
  induction H1; simpl;
    [assumption | apply subseq_skip; assumption | apply subseq_keep; assumption].
Qed.

Lemma subseq_in {A} (xs ys : list A) (a : A) :
  subseq xs ys -> In a xs -> In a ys.
Proof.
  intro H. induction H as [|x xs ys _ IH|x xs ys _ IH]; simpl; intro Hin.
  - exact Hin.
  - right. exact (IH Hin).
  - destruct Hin as [->|Hin]; [left; reflexivity | right; exact (IH Hin)].
Qed.

Lemma subseq_length {A} (xs ys : list A) :
  subseq xs ys -> (List.length xs <= List.length ys)%nat.
Proof. intro H. induction H; simpl; lia. Qed.

Lemma subseq_NoDup {A} (xs ys : list A) :
  subseq xs ys -> NoDup ys -> NoDup xs.
Proof.
  intro H. induction H as [|x xs ys _ IH|x xs ys Hs IH]; intro N.
  - exact N.
  - inversion N; subst. apply IH. assumption.
  - inversion N as [|? ? Hx N']; subst. constructor; [|exact (IH N')].
    intro Hin. apply Hx. exact (subseq_in x Hs Hin).
Qed.

Lemma subseq_Forall {A} (P : A -> Prop) (xs ys : list A) :
  subseq xs ys -> Forall P ys -> Forall P xs.
Proof.
  intros H F. rewrite Forall_forall in *. intros a Ha.
  apply F. exact (subseq_in a H Ha).
Qed.

Lemma subseq_sorted {A} (R : A -> A -> Prop) (xs ys : list A) :
  subseq xs ys -> StronglySorted R ys -> StronglySorted R xs.
Proof.
  intro H. induction H as [|x xs ys _ IH|x xs ys Hs IH]; intro S.
  - exact S.
  - inversion S; subst. apply IH. assumption.
  - inversion S as [|? ? S' F]; subst. constructor; [exact (IH S')|].
    exact (subseq_Forall Hs F).
Qed.

(** The rows kept by [present] follow the order of the combinations. *)
Lemma present_subseq {K Row B} (mk : Metrics -> K -> Row) (f : Row -> B)
    (g : K -> B) (ks : list K) (os : list (option Metrics)) :
  (forall r k, f (mk r k) = g k) ->
  subseq (map f (present mk (combine ks os))) (map g ks).
Proof.
  intro E. revert os. induction ks as [|k ks IH]; intro os.
  - constructor.
  - destruct os as [|o os]; [apply subseq_nil_l|].
    simpl. destruct o as [r|]; simpl.
    + rewrite E. apply subseq_keep. apply IH.
    + apply subseq_skip. apply IH.
Qed.

Lemma present_printable {K Row} (mk : Metrics -> K -> Row)
    (metrics : Row -> Metrics) (ks : list K) (os : list (option Metrics)) :
  (forall r k, metrics (mk r k) = r) ->
  Forall printable os ->
  Forall (fun row => is_number (pdr (metrics row)) = true)
         (present mk (combine ks os)).
Proof.
  intros E F. apply Forall_forall. intros row Hrow.
  apply present_in in Hrow. destruct Hrow as (k & r & _ & Hr & ->).
  rewrite E. rewrite Forall_forall in F. exact (F _ Hr).
Qed.

Lemma present_none {K Row} (mk : Metrics -> K -> Row) (ks : list K)
    (os : list (option Metrics)) :
  Forall (fun o => o = None) os -> present mk (combine ks os) = [].
Proof.
  revert os. induction ks as [|k ks IH]; intros os F; [reflexivity|].
  destruct os as [|o os]; [reflexivity|].
  inversion F as [|? ? -> F']; subst. simpl. exact (IH _ F').
Qed.

(** ** Sorting *)

Lemma insert_by_perm {A} (key : A -> Z) (x : A) (xs : list A) :
  Permutation (insert_by key x xs) (x :: xs).
Proof.
  induction xs as [|y ys IH]; simpl; [reflexivity|].
  destruct (key x <=? key y); [reflexivity|].
  rewrite IH. apply perm_swap.
Qed.

Lemma sort_values_perm {A} (key : A -> Z) (xs : list A) :
  Permutation (sort_values key xs) xs.
Proof.
  induction xs as [|x xs IH]; simpl; [reflexivity|].
  rewrite insert_by_perm. constructor. exact IH.
Qed.

Lemma insert_by_sorted {A} (key : A -> Z) (x : A) (xs : list A) :
  StronglySorted (fun a b => key a <= key b) xs ->
  StronglySorted (fun a b => key a <= key b) (insert_by key x xs).
Proof.
  intro S. induction S as [|y ys S IH F]; simpl.
  - repeat constructor.
  - destruct (Z.leb_spec (key x) (key y)) as [L|L].
    + constructor; [constructor; assumption|].
      constructor; [exact L|].
      rewrite Forall_forall in *. intros b Hb. specialize (F b Hb). lia.
    + constructor; [exact IH|].
      apply (@Permutation_Forall _ _ (x :: ys)).
      * symmetry. apply insert_by_perm.
      * constructor; [lia | exact F].
Qed.

Lemma sort_values_sorted {A} (key : A -> Z) (xs : list A) :
  StronglySorted (fun a b => key a <= key b) (sort_values key xs).
Proof.
  induction xs as [|x xs IH]; simpl; [constructor|].
  apply insert_by_sorted. exact IH.
Qed.

(** Rows already in strictly increasing order are left as they are. *)
Lemma sort_values_increasing {A} (key : A -> Z) (xs : list A) :
  StronglySorted Z.lt (map key xs) -> sort_values key xs = xs.
Proof.
  induction xs as [|x xs IH]; simpl; intro S; [reflexivity|].
  inversion S as [|? ? S' F]; subst. rewrite (IH S').
  destruct xs as [|y ys]; [reflexivity|].
  simpl. inversion F as [|? ? L _]; subst.
  apply Z.lt_le_incl, Z.leb_le in L. rewrite L. reflexivity.
Qed.

Lemma filter_none {A} (p : A -> bool) (xs : list A) :
  Forall (fun x => p x = false) xs -> filter p xs = [].
Proof.
  induction 1 as [|x xs Hx _ IH]; simpl; [reflexivity|].
  rewrite Hx. exact IH.
Qed.

Lemma filter_all {A} (p : A -> bool) (xs : list A) :
  Forall (fun x => p x = true) xs -> filter p xs = xs.
Proof.
  induction 1 as [|x xs Hx _ IH]; simpl; [reflexivity|].
  rewrite Hx, IH. reflexivity.
Qed.

(** ** The shape of the datasets *)

Section DatasetShapes.

Variable W : Type.
Variable exec : Cmd -> W -> Z * W.
Variable file : W -> string -> File.

Lemma run_simulation_fails attack pps thr n win t (st : St W) :
  fst (exec (build_cmd attack pps thr n win t) (world st)) <> 0 ->
  fst (run_simulation exec file attack pps thr n win t st) = None.
Proof.
  unfold run_simulation, subprocess_run.
  destruct (exec _ (world st)) as [rc w']. simpl. intro H.
  destruct (Z.eqb_spec rc 0) as [E|_]; [contradiction (H E) | reflexivity].
Qed.

Lemma run_all_none (cs : list Combination) (st : St W) :
  (forall c w, fst (exec c w) <> 0) ->
  Forall (fun o => o = None) (fst (run_all exec file cs st)).
Proof.
  intro F. revert st. induction cs as [|c cs IH]; intro st.
  - constructor.
  - rewrite run_all_cons. simpl. constructor; [|apply IH].
    apply run_simulation_fails. apply F.
Qed.

Lemma none_printable (os : list (option Metrics)) :
  Forall (fun o => o = None) os -> Forall printable os.
Proof.
  intro F. eapply Forall_impl; [|exact F]. intros o ->. exact I.
Qed.

(** X2. A baseline dataset that is returned has at most one row per
    scenario, in the order RPL, InsecRPL, SecRPL; every ratio in it is a
    number; and the three commands were run. *)
Theorem baseline_dataset_shape :
  forall (st st' : St W) (ds : list BaselineRow),
    collect_baseline_data exec file st = (Ok ds, st') ->
    subseq (map b_scenario ds) ["RPL"; "InsecRPL"; "SecRPL"]
    /\ NoDup (map b_scenario ds)
    /\ Forall (fun row => is_number (pdr (b_metrics row)) = true) ds
    /\ calls st' = calls st ++ map command_of baseline_combinations.
Proof.
  intros st st' ds H.
  pose proof (baseline_sweep_ok exec file st H) as Hp.
  rewrite (baseline_sweep exec file st Hp) in H.
  apply ok_pair_inv in H. destruct H as [<- <-].
  assert (subseq
            (map b_scenario
               (present baseline_row
                  (combine baseline_combinations
                     (fst (run_all exec file baseline_combinations st)))))
            ["RPL"; "InsecRPL"; "SecRPL"]) as S.
  { exact (present_subseq baseline_row b_scenario c_label
             baseline_combinations _ (fun r k => eq_refl)). }
  split; [exact S|]. split; [|split].
  - apply (subseq_NoDup S).
    repeat constructor; simpl; intuition discriminate.
  - exact (present_printable baseline_row b_metrics _ (fun r k => eq_refl) Hp).
  - apply run_all_calls.
Qed.

(** X3. A threshold dataset that is returned holds rows labelled SecRPL
    whose thresholds are some of 5, 10, 20, 30, 50 in increasing order,
    each at most once, with ratios that are numbers; sorting it by
    threshold, as figures 4 and 5 do, changes nothing. *)
Theorem threshold_dataset_shape :
  forall (st st' : St W) (ds : list ThreshRow),
    collect_threshold_data exec file st = (Ok ds, st') ->
    subseq (map threshold ds) [5; 10; 20; 30; 50]
    /\ StronglySorted Z.lt (map threshold ds)
    /\ Forall (fun row => t_scenario row = "SecRPL"
                          /\ is_number (pdr (t_metrics row)) = true) ds
    /\ sort_values threshold ds = ds.
Proof.
  intros st st' ds H. unfold collect_threshold_data in H.
  pose proof (threshold_loop_ok exec file _ _ _ H) as Hp.
  rewrite (threshold_loop exec file thresholds [] st Hp) in H.
  apply ok_pair_inv in H. destruct H as [<- _]. rewrite app_nil_l.
  set (cs := map threshold_combination thresholds) in *.
  set (os := fst (run_all exec file cs st)) in *.
  assert (subseq (map threshold (present threshold_row (combine cs os)))
            [5; 10; 20; 30; 50]) as S.
  { exact (present_subseq threshold_row threshold c_threshold cs os
             (fun r k => eq_refl)). }
  assert (StronglySorted Z.lt
            (map threshold (present threshold_row (combine cs os)))) as Srt.
  { apply (subseq_sorted S). repeat constructor; lia. }
  split; [exact S|]. split; [exact Srt|]. split.
  - apply Forall_forall. intros row Hrow. split.
    + apply present_in in Hrow. destruct Hrow as (c & r & Hc & _ & ->).
      unfold cs in Hc. apply in_map_iff in Hc. destruct Hc as (t & <- & _).
      reflexivity.
    + pose proof (present_printable threshold_row t_metrics cs
                    (fun r k => eq_refl) Hp) as F.
      rewrite Forall_forall in F. exact (F row Hrow).
  - exact (sort_values_increasing threshold _ Srt).
Qed.

(** X4. A frequency dataset that is returned has rows with distinct
    (scenario, rate) pairs, in the order the sweep stores them, so there
    are at most 15; the rows labelled RPL are either absent or the five
    copies of one record, one per rate. *)
Theorem frequency_dataset_shape :
  forall (st st' : St W) (ds : list FreqRow),
    collect_attack_frequency_data exec file st = (Ok ds, st') ->
    subseq (map frequency_key ds) frequency_keys
    /\ NoDup (map frequency_key ds)
    /\ (List.length ds <= 15)%nat
    /\ exists base : option Metrics,
         filter (fun row => String.eqb (f_scenario row) "RPL") ds
         = match base with
           | Some r => map (fun pps => mkFreqRow r "RPL" pps)
                           [200; 400; 600; 800; 1000]
           | None => []
           end.
Proof.
  intros st st' ds H.
  pose proof (frequency_sweep exec file st) as E. cbv zeta in E.
  set (os := fst (run_all exec file frequency_combinations st)) in *.
  set (base := fst (run_simulation exec file false 800 20 25 1 120 _)) in *.
  rewrite E in H. apply ok_pair_inv in H. destruct H as [<- _].
  assert (subseq
            (map frequency_key
               (present frequency_row (combine frequency_combinations os)
                ++ broadcast base)) frequency_keys) as S.
  { rewrite map_app. unfold frequency_keys. apply subseq_app.
    - exact (present_subseq frequency_row frequency_key
               (fun c => (c_label c, c_pps c)) frequency_combinations os
               (fun r k => eq_refl)).
    - destruct base as [r|]; [|apply subseq_nil_l].
      unfold broadcast. rewrite map_map. apply subseq_refl. }
  split; [exact S|]. split; [|split].
  - apply (subseq_NoDup S).
    repeat constructor; simpl; intuition congruence.
  - pose proof (subseq_length S) as L. rewrite length_map in L. exact L.
  - exists base. rewrite filter_app. rewrite filter_none.
    + destruct base as [r|]; [|reflexivity].
      simpl. reflexivity.
    + apply Forall_forall. intros row Hrow.
      apply present_in in Hrow. destruct Hrow as (c & r & Hc & _ & ->).
      simpl in Hc.
      repeat (destruct Hc as [<-|Hc]; [reflexivity|]). contradiction Hc.
Qed.

(** X5. When the simulator fails on every command, each collector still
    runs all of its commands (3, 11 and 5), raises nothing and returns the
    empty dataset. *)
Theorem collectors_return_empty_when_every_run_fails :
  (forall c w, fst (exec c w) <> 0) ->
  forall (st : St W),
    (fst (collect_baseline_data exec file st) = Ok []
     /\ List.length (calls (snd (collect_baseline_data exec file st)))
        = (List.length (calls st) + 3)%nat)
    /\ (fst (collect_attack_frequency_data exec file st) = Ok []
        /\ List.length
             (calls (snd (collect_attack_frequency_data exec file st)))
           = (List.length (calls st) + 11)%nat)
    /\ (fst (collect_threshold_data exec file st) = Ok []
        /\ List.length (calls (snd (collect_threshold_data exec file st)))
           = (List.length (calls st) + 5)%nat).
Proof.
  intros F st. split; [|split].
  - pose proof (run_all_none baseline_combinations st F) as N.
    pose proof (baseline_sweep exec file st (none_printable N)) as E.
    rewrite (present_none _ _ N) in E. rewrite E. cbn [fst snd].
    split; [reflexivity|].
    rewrite run_all_calls, length_app. reflexivity.
  - pose proof (frequency_sweep exec file st) as E. cbv zeta in E.
    pose proof (run_all_none frequency_combinations st F) as N.
    rewrite (present_none _ _ N) in E.
    rewrite run_simulation_fails in E by apply F.
    rewrite E. cbn [fst snd app broadcast].
    split; [reflexivity|].
    rewrite run_simulation_calls, run_all_calls, !length_app. simpl. lia.
  - unfold collect_threshold_data.
    pose proof (run_all_none (map threshold_combination thresholds) st F) as N.
    pose proof (threshold_loop exec file thresholds [] st (none_printable N))
      as E. cbv zeta in E.
    rewrite (present_none _ _ N) in E. rewrite E. cbn [fst snd].
    split; [reflexivity|].
    rewrite run_all_calls, length_app. reflexivity.
Qed.

End DatasetShapes.

(** ** The figures *)

Lemma is_empty_perm {A} (xs ys : list A) :
  Permutation xs ys -> is_empty xs = is_empty ys.
Proof.
  intro P. destruct xs as [|x xs], ys as [|y ys]; try reflexivity.
  - apply Permutation_nil in P. discriminate P.
  - symmetry in P. apply Permutation_nil in P. discriminate P.
Qed.

Lemma is_empty_filter {A} (p : A -> bool) (xs : list A) :
  is_empty (filter p xs) = negb (existsb p xs).
Proof.
  induction xs as [|x xs IH]; simpl; [reflexivity|].
  destruct (p x); simpl; [reflexivity | exact IH].
Qed.

Lemma period_positive (pps : Z) :
  0 < pps -> period pps = VNum (1 / inject_Z pps) /\ (0 < 1 / inject_Z pps)%Q.
Proof.
  intro H. unfold period.
  destruct (Z.eqb_spec pps 0) as [E|_]; [lia|].
  split; [reflexivity|].
  unfold Qdiv. rewrite Qmult_1_l. apply Qinv_lt_0_compat.
  unfold Qlt. simpl. lia.
Qed.

Lemma inverse_antitone (p q : Z) :
  0 < p -> p <= q -> (1 / inject_Z q <= 1 / inject_Z p)%Q.
Proof.
  intros Hp Hq.
  destruct p as [|p|p]; try lia. destruct q as [|q|q]; try lia.
  unfold Qle, Qdiv, Qmult, Qinv, inject_Z. simpl. lia.
Qed.

(** X6. The curve that figures 1 to 3 draw for a scenario: none when the
    scenario has no row; otherwise one curve whose points are the rows of
    the scenario, each exactly once, in order of increasing attacker rate,
    with x = 1 / rate. *)
Theorem scenario_series_points :
  forall (freq_df : list FreqRow) (y : Metrics -> value) (scenario : string),
    let rows := filter (fun r => String.eqb (f_scenario r) scenario) freq_df in
    (rows = [] -> scenario_series freq_df y scenario = [])
    /\ (rows <> [] ->
        exists sorted : list FreqRow,
          scenario_series freq_df y scenario
          = [ mkSeries scenario
                (map (fun r => period (attack_pps r)) sorted)
                (map (fun r => y (f_metrics r)) sorted) ]
          /\ Permutation sorted rows
          /\ StronglySorted (fun a b => attack_pps a <= attack_pps b) sorted).
Proof.
  intros freq_df y scenario rows. unfold scenario_series. fold rows. split.
  - intros ->. reflexivity.
  - intro N. exists (sort_values attack_pps rows).
    rewrite (is_empty_perm (sort_values_perm attack_pps rows)).
    destruct rows as [|r rows']; [contradiction N; reflexivity|].
    split; [reflexivity|].
    split; [apply sort_values_perm | apply sort_values_sorted].
Qed.

(** X7. With positive attacker rates, the x values of a curve of figures 1
    to 3 are positive numbers that never increase along the curve: the
    curve runs from the longest attack interval to the shortest. *)
Theorem curve_runs_from_long_to_short_interval :
  forall (freq_df : list FreqRow) (y : Metrics -> value) (scenario : string)
         (s : Series),
    Forall (fun r => 0 < attack_pps r) freq_df ->
    In s (scenario_series freq_df y scenario) ->
    exists qs : list Q,
      x_vals s = map VNum qs
      /\ Forall (fun q => 0 < q)%Q qs
      /\ StronglySorted (fun a b => b <= a)%Q qs.
Proof.
  intros freq_df y scenario s Pos Hs. unfold scenario_series in Hs.
  set (rows := sort_values attack_pps
                 (filter (fun r => String.eqb (f_scenario r) scenario) freq_df))
    in *.
  destruct (negb (is_empty rows)); [|contradiction Hs].
  destruct Hs as [<-|[]]. simpl.
  assert (Forall (fun r => 0 < attack_pps r) rows) as Pos'.
  { apply (@Permutation_Forall _ _
             (filter (fun r => String.eqb (f_scenario r) scenario) freq_df)).
    - symmetry. apply sort_values_perm.
    - apply Forall_forall. intros r Hr. apply filter_In in Hr.
      rewrite Forall_forall in Pos. apply Pos. apply Hr. }
  pose proof (sort_values_sorted attack_pps
                (filter (fun r => String.eqb (f_scenario r) scenario) freq_df))
    as Srt.
  fold rows in Srt. clearbody rows.
  exists (map (fun r => 1 / inject_Z (attack_pps r))%Q rows).
  induction rows as [|r rows IH]; simpl.
  - repeat split; constructor.
  - inversion Pos' as [|? ? Hr Pos'']; subst.
    inversion Srt as [|? ? Srt' Fr]; subst.
    destruct (IH Pos'' Srt') as (E1 & E2 & E3).
    destruct (period_positive Hr) as [-> Hq].
    split; [rewrite E1; reflexivity|].
    split; [constructor; assumption|].
    constructor; [exact E3|].
    apply Forall_forall. intros q Hq'. apply in_map_iff in Hq'.
    destruct Hq' as (r' & <- & Hr').
    rewrite Forall_forall in Fr. apply inverse_antitone; [exact Hr|].
    exact (Fr r' Hr').
Qed.

(** X8. Each of figures 1 to 3 raises nothing; it is saved exactly when
    the frequency dataset is not empty, and it then has one curve for each
    of RPL, InsecRPL, SecRPL that has a row, in that order, and none for a
    scenario without rows. *)
Theorem frequency_graph_curves :
  forall (name : string) (y : Metrics -> value) (freq_df : list FreqRow)
         (saved : list Figure),
    (freq_df = [] -> frequency_graph name y freq_df saved = (Ok tt, saved))
    /\ (freq_df <> [] ->
        exists fig : Figure,
          frequency_graph name y freq_df saved = (Ok tt, saved ++ [fig])
          /\ filename fig = name
          /\ map s_label (series fig)
             = filter (fun l => existsb (fun r => String.eqb (f_scenario r) l)
                                        freq_df)
                      ["RPL"; "InsecRPL"; "SecRPL"]
          /\ hlines fig = [] /\ bars fig = []).
Proof.
  intros name y freq_df saved. unfold frequency_graph. split.
  - intros ->. reflexivity.
  - intro N. destruct freq_df as [|r0 rest]; [contradiction N; reflexivity|].
    set (df := r0 :: rest). simpl negb. cbv iota.
    eexists. split; [reflexivity|]. split; [reflexivity|].
    split; [|split; reflexivity].
    assert (forall l,
              map s_label (scenario_series df y l)
              = if existsb (fun r => String.eqb (f_scenario r) l) df
                then [l] else []) as One.
    { intro l. unfold scenario_series.
      rewrite (is_empty_perm (sort_values_perm attack_pps _)).
      rewrite is_empty_filter, negb_involutive.
      destruct (existsb _ df); reflexivity. }
    cbn [series flat_map filter]. rewrite !map_app, !One, app_nil_r.
    destruct (existsb (fun r => String.eqb (f_scenario r) "RPL") df),
             (existsb (fun r => String.eqb (f_scenario r) "InsecRPL") df),
             (existsb (fun r => String.eqb (f_scenario r) "SecRPL") df);
      reflexivity.
Qed.

(** Names the figures added to those already saved. *)
Ltac name_figures :=
  match goal with
  | |- exists figs, (Ok tt, ?s ++ ?f) = (Ok tt, ?s ++ figs) /\ _ =>
      exists f; split; reflexivity
  | |- exists figs, (Ok tt, ?s) = (Ok tt, ?s ++ figs) /\ _ =>
      exists []; rewrite app_nil_r; split; reflexivity
  end.

Section FigureFacts.

Variable int_of_str : string -> option Z.

Lemma for_all_colors (df : list BaselineRow) :
  Forall drawable df ->
  for_all (fun s => (_ <-- lookup_color s ;; Ok tt)%res) (map b_scenario df)
  = Ok tt.
Proof.
  induction 1 as [|row df (Hc & _) _ IH]; simpl; [reflexivity|].
  unfold lookup_color. unfold colors in Hc. simpl in Hc.
  destruct Hc as [<-|[<-|[<-|[]]]]; simpl; exact IH.
Qed.

Lemma for_all_format (col : Metrics -> value) (df : list BaselineRow) :
  Forall (fun row => is_number (col (b_metrics row)) = true) df ->
  for_all format_f (map (fun r => col (b_metrics r)) df) = Ok tt.
Proof.
  induction 1 as [|row df H _ IH]; simpl; [reflexivity|].
  rewrite (format_f_number _ H). simpl. exact IH.
Qed.

Lemma for_all_int (df : list BaselineRow) :
  Forall drawable df ->
  for_all (fun v => (_ <-- py_int int_of_str v ;; Ok tt)%res)
          (map (fun r => ctrl_rx (b_metrics r)) df)
  = Ok tt.
Proof.
  induction 1 as [|row df (_ & _ & _ & Hf) _ IH]; simpl; [reflexivity|].
  destruct (ctrl_rx (b_metrics row)); try discriminate Hf. simpl. exact IH.
Qed.

(** When the baseline is empty or has both reference scenarios, and its
    rows can be drawn, no figure raises. *)
Lemma figures_on_drawable_data (baseline_df : list BaselineRow)
    (freq_df : list FreqRow) (thresh_df : list ThreshRow)
    (saved : list Figure) :
  baseline_df = []
  \/ (has_scenario baseline_df "RPL" = true
      /\ has_scenario baseline_df "InsecRPL" = true) ->
  Forall drawable baseline_df ->
  exists figs : list Figure,
    create_research_style_graphs int_of_str baseline_df freq_df thresh_df saved
    = (Ok tt, saved ++ figs)
    /\ map filename figs
       = (if is_empty freq_df then []
          else [ "figure1_dao_overhead.png"; "figure2_pdr_vs_frequency.png";
                 "figure3_delay_vs_frequency.png" ])
         ++ (if is_empty thresh_df then []
             else [ "figure4_pdr_vs_threshold.png";
                    "figure5_overhead_vs_threshold.png" ])
         ++ (if is_empty baseline_df then [] else ["figure6_comparison.png"]).
Proof.
  intros Hb Hd.
  unfold create_research_style_graphs, frequency_graph, bind, check, ret,
    savefig.
  destruct Hb as [->|[Hr Hi]].
  - destruct (is_empty freq_df), (is_empty thresh_df); simpl;
      rewrite <- ?app_assoc; name_figures.
  - destruct (value_of_scenario baseline_df "RPL" pdr Hr) as [v1 E1].
    destruct (value_of_scenario baseline_df "InsecRPL" pdr Hi) as [v2 E2].
    assert (is_empty baseline_df = false) as Eb.
    { destruct baseline_df; [discriminate Hr | reflexivity]. }
    rewrite Eb, E1, E2. simpl negb. cbv iota.
    rewrite (for_all_colors Hd), (for_all_int Hd).
    rewrite (for_all_format pdr), (for_all_format delay_ms);
      try (eapply Forall_impl; [|exact Hd]; intros row H; apply H).
    destruct (is_empty freq_df), (is_empty thresh_df); simpl;
      rewrite <- ?app_assoc; name_figures.
Qed.

(** X9. The six figures: when the baseline is empty, or has an RPL row
    and an InsecRPL row, and every baseline row has a known scenario, a
    ratio and a delay that are numbers and a finite control count, nothing
    is raised, and the figures saved are 1 to 3 if the frequency dataset has
    rows, 4 and 5 if the threshold dataset has rows, and 6 if the baseline
    has rows, in that order. *)
Theorem figures_saved_for_each_dataset_with_rows :
  forall (baseline_df : list BaselineRow) (freq_df : list FreqRow)
         (thresh_df : list ThreshRow) (saved : list Figure),
    baseline_df = []
    \/ (has_scenario baseline_df "RPL" = true
        /\ has_scenario baseline_df "InsecRPL" = true) ->
    Forall drawable baseline_df ->
    exists figs : list Figure,
      create_research_style_graphs int_of_str baseline_df freq_df thresh_df
        saved
      = (Ok tt, saved ++ figs)
      /\ map filename figs
         = (if is_empty freq_df then []
            else [ "figure1_dao_overhead.png"; "figure2_pdr_vs_frequency.png";
                   "figure3_delay_vs_frequency.png" ])
           ++ (if is_empty thresh_df then []
               else [ "figure4_pdr_vs_threshold.png";
                      "figure5_overhead_vs_threshold.png" ])
           ++ (if is_empty baseline_df then [] else ["figure6_comparison.png"]).
Proof. exact figures_on_drawable_data. Qed.

End FigureFacts.

(** ** The summary *)

Lemma is_finite_number (v : value) : is_finite v = true -> is_number v = true.
Proof. destruct v; simpl; intro H; [reflexivity | discriminate H | discriminate H]. Qed.

Lemma py_mul_number (v : value) (k : Z) :
  is_number v = true -> is_number (py_mul v k) = true.
Proof. destruct v; simpl; intro H; [reflexivity | reflexivity | discriminate H]. Qed.

Lemma py_sub_number (a b : value) :
  is_number a = true -> is_number b = true ->
  exists v, py_sub a b = Ok v /\ is_number v = true.
Proof.
  destruct a, b; simpl; intros Ha Hb; try discriminate;
    eexists; split; reflexivity.
Qed.

Lemma py_div_number (a b : value) :
  is_number a = true -> is_number b = true ->
  exists v, py_div a b = Ok v /\ is_number v = true.
Proof.
  destruct a, b; simpl; intros Ha Hb; try discriminate;
    try (eexists; split; reflexivity).
  destruct (Qeq_bool q0 0); eexists; split; reflexivity.
Qed.

Lemma baseline_value_in (df : list BaselineRow) (s : string)
    (col : Metrics -> value) (v : value) :
  baseline_value df s col = Ok v ->
  exists row, In row df /\ b_scenario row = s /\ col (b_metrics row) = v.
Proof.
  unfold baseline_value.
  induction df as [|r df IH]; simpl; [discriminate|].
  destruct (String.eqb_spec (b_scenario r) s) as [E|_]; simpl.
  - intro H. injection H as <-. exists r. repeat split; [left; reflexivity | exact E].
  - intro H. destruct (IH H) as (row & Hin & Hrow).
    exists row. split; [right; exact Hin | exact Hrow].
Qed.

Section SummaryFacts.

Variable int_of_str : string -> option Z.

(** On a baseline whose ratios are numbers the summary raises only if the
    count of dropped packets cannot be turned into an integer. *)
Lemma summary_on_numbers (baseline_df : list BaselineRow)
    (freq_df : list FreqRow) (thresh_df : list ThreshRow) :
  Forall (fun row => is_number (pdr (b_metrics row)) = true) baseline_df ->
  (forall v, baseline_value baseline_df "SecRPL" ctrl_dropped = Ok v ->
             exists z, py_int int_of_str v = Ok z) ->
  exists o,
    print_summary_table int_of_str baseline_df freq_df thresh_df = Ok o
    /\ (o <> None <->
        has_scenario baseline_df "InsecRPL" && has_scenario baseline_df "SecRPL"
        = true).
Proof.
  intros Hn Hd. unfold print_summary_table.
  destruct (is_empty baseline_df) eqn:Eb; simpl negb; cbv iota.
  - destruct baseline_df; [|discriminate Eb].
    exists None. split; [reflexivity|]. simpl. split; intro H;
      [contradiction H; reflexivity | discriminate H].
  - destruct (has_scenario baseline_df "InsecRPL") eqn:Hi;
      [destruct (has_scenario baseline_df "SecRPL") eqn:Hs|]; simpl andb;
      cbv iota;
      try (exists None; split; [reflexivity|];
           split; intro H; [contradiction H; reflexivity | discriminate H]).
    destruct (value_of_scenario baseline_df "InsecRPL" pdr Hi) as [insec Ei].
    destruct (value_of_scenario baseline_df "SecRPL" pdr Hs) as [sec Es].
    destruct (value_of_scenario baseline_df "SecRPL" ctrl_dropped Hs)
      as [dropped Ed].
    assert (is_number insec = true) as Ni.
    { destruct (baseline_value_in _ _ _ Ei) as (row & Hin & _ & <-).
      rewrite Forall_forall in Hn. exact (Hn row Hin). }
    assert (is_number sec = true) as Ns.
    { destruct (baseline_value_in _ _ _ Es) as (row & Hin & _ & <-).
      rewrite Forall_forall in Hn. exact (Hn row Hin). }
    destruct (py_sub_number _ _ Ns Ni) as (diff & E1 & N1).
    destruct (py_div_number _ _ N1 Ni) as (ratio & E2 & N2).
    destruct (py_sub_number (VNum 1) insec eq_refl Ni) as (drop & E3 & N3).
    destruct (Hd _ Ed) as [z Ez].
    rewrite Ei, Es, Ed. cbn [rbind]. rewrite E1. cbn [rbind].
    rewrite E2. cbn [rbind].
    rewrite (format_f_number _ (py_mul_number _ 100 N2)). cbn [rbind].
    rewrite E3. cbn [rbind].
    rewrite (format_f_number _ (py_mul_number _ 100 N3)). cbn [rbind].
    rewrite Ez. cbn [rbind].
    eexists. split; [reflexivity|].
    split; [reflexivity | intros _; discriminate].
Qed.


(** X11. An attack-only ratio of zero does not stop the summary: the
    division gives a value that is not finite, the degradation is 100 per
    cent, and the key findings are printed. *)
Theorem summary_with_zero_attack_ratio :
  forall (baseline_df : list BaselineRow) (freq_df : list FreqRow)
         (thresh_df : list ThreshRow) (insec sec dropped : Q),
    baseline_value baseline_df "InsecRPL" pdr = Ok (VNum insec) ->
    baseline_value baseline_df "SecRPL" pdr = Ok (VNum sec) ->
    baseline_value baseline_df "SecRPL" ctrl_dropped = Ok (VNum dropped) ->
    (insec == 0)%Q ->
    exists g : Q,
      print_summary_table int_of_str baseline_df freq_df thresh_df
      = Ok (Some (mkSummaryReport VNonFinite (VNum g)
                    (Z.quot (Qnum dropped) (Zpos (Qden dropped)))))
      /\ (g == 100)%Q.
Proof.
  intros baseline_df freq_df thresh_df insec sec dropped Hi Hs Hd Hz.
  unfold print_summary_table.
  rewrite (has_scenario_value _ _ _ Hi), (has_scenario_value _ _ _ Hs).
  assert (negb (is_empty baseline_df) = true) as ->.
  { destruct baseline_df; [discriminate Hi | reflexivity]. }
  simpl andb. cbv iota. rewrite Hi, Hs, Hd. simpl.
  apply Qeq_bool_iff in Hz. rewrite Hz. simpl.
  eexists. split; [reflexivity|].
  apply Qeq_bool_iff in Hz. rewrite Hz. reflexivity.
Qed.

End SummaryFacts.

(** ** The whole run *)

Section MainFacts.

Variable W : Type.
Variable exec : Cmd -> W -> Z * W.
Variable file : W -> string -> File.
Variable path_exists : W -> string -> bool.
Variable int_of_str : string -> option Z.

(** [main] once the three collectors have returned. *)
Lemma main_after_collection (s : Session W) (st1 st2 st3 : St W)
    (baseline_df : list BaselineRow) (freq_df : list FreqRow)
    (thresh_df : list ThreshRow) :
  path_exists (world (driver s)) code_file = true ->
  collect_baseline_data exec file (driver s) = (Ok baseline_df, st1) ->
  collect_attack_frequency_data exec file st1 = (Ok freq_df, st2) ->
  collect_threshold_data exec file st2 = (Ok thresh_df, st3) ->
  main exec file path_exists int_of_str s
  = let drawn :=
      create_research_style_graphs int_of_str baseline_df freq_df thresh_df
        (figures s) in
    let written := csv_files s ++ raw_data baseline_df freq_df thresh_df in
    match fst drawn with
    | Ok _ =>
        match print_summary_table int_of_str baseline_df freq_df thresh_df with
        | Ok o =>
            (Ok tt,
             mkSession st3 written (snd drawn)
               match o with Some r => Some r | None => findings s end)
        | Raise e => (Raise e, mkSession st3 written (snd drawn) (findings s))
        end
    | Raise e => (Raise e, mkSession st3 written (snd drawn) (findings s))
    end.
Proof.
  intros Hp Eb Ef Et.
  unfold main. rewrite Hp. simpl negb. cbv iota.
  unfold bind, in_driver, in_figures, to_csv, check, show. simpl.
  rewrite Eb. simpl. rewrite Ef. simpl. rewrite Et. simpl.
  destruct (create_research_style_graphs int_of_str baseline_df freq_df
              thresh_df (figures s)) as [[u|e] saved]; simpl.
  - rewrite <- !app_assoc. simpl.
    destruct (print_summary_table int_of_str baseline_df freq_df thresh_df)
      as [o|e]; reflexivity.
  - rewrite <- !app_assoc. reflexivity.
Qed.

(** *** The collectors on a simulator that always fails *)

Lemma baseline_all_fail (st : St W) :
  (forall c w, fst (exec c w) <> 0) ->
  collect_baseline_data exec file st
  = (Ok [], snd (run_all exec file baseline_combinations st)).
Proof.
  intro F. pose proof (run_all_none exec file baseline_combinations st F) as N.
  pose proof (baseline_sweep exec file st (none_printable N)) as E.
  rewrite (present_none _ _ N) in E. exact E.
Qed.

Lemma frequency_all_fail (st : St W) :
  (forall c w, fst (exec c w) <> 0) ->
  collect_attack_frequency_data exec file st
  = (Ok [],
     snd (run_simulation exec file false 800 20 25 1 120
            (snd (run_all exec file frequency_combinations st)))).
Proof.
  intro F. pose proof (frequency_sweep exec file st) as E. cbv zeta in E.
  pose proof (run_all_none exec file frequency_combinations st F) as N.
  rewrite (present_none _ _ N) in E.
  rewrite (run_simulation_fails exec file) in E by apply F.
  exact E.
Qed.

Lemma threshold_all_fail (st : St W) :
  (forall c w, fst (exec c w) <> 0) ->
  collect_threshold_data exec file st
  = (Ok [], snd (run_all exec file (map threshold_combination thresholds) st)).
Proof.
  intro F. unfold collect_threshold_data.
  pose proof (run_all_none exec file (map threshold_combination thresholds) st F)
    as N.
  pose proof (threshold_loop exec file thresholds [] st (none_printable N)) as E.
  cbv zeta in E. rewrite (present_none _ _ N) in E. exact E.
Qed.

(** *** The collectors on a well-behaved simulator *)

Lemma finite_metrics_fields (r : Metrics) :
  finite_metrics r = true ->
  is_finite (pdr r) = true /\ is_finite (delay_ms r) = true
  /\ is_finite (ctrl_rx r) = true /\ is_finite (ctrl_dropped r) = true.
Proof.
  unfold finite_metrics. intro H.
  apply andb_prop in H. destruct H as [H H4].
  apply andb_prop in H. destruct H as [H H3].
  apply andb_prop in H. destruct H as [H1 H2].
  repeat split; assumption.
Qed.

Lemma run_simulation_succeeds attack pps thr n win t (st : St W) :
  well_behaved exec file ->
  exists r, fst (run_simulation exec file attack pps thr n win t st) = Some r
            /\ finite_metrics r = true.
Proof.
  intros [Hx Hr]. unfold run_simulation, subprocess_run.
  pose proof (Hx (build_cmd attack pps thr n win t) (world st)) as X.
  destruct (exec _ (world st)) as [rc w']. simpl in X. subst rc. simpl.
  destruct (Hr w') as (r & E & Fin). rewrite E. exists r.
  split; [reflexivity | exact Fin].
Qed.

Lemma run_all_succeeds (cs : list Combination) (st : St W) :
  well_behaved exec file ->
  Forall (fun o => exists r, o = Some r /\ finite_metrics r = true)
         (fst (run_all exec file cs st)).
Proof.
  intro H. revert st. induction cs as [|c cs IH]; intro st.
  - constructor.
  - rewrite run_all_cons. simpl. constructor; [|apply IH].
    apply run_simulation_succeeds. exact H.
Qed.

Lemma succeeded_printable (os : list (option Metrics)) :
  Forall (fun o => exists r, o = Some r /\ finite_metrics r = true) os ->
  Forall printable os /\ Forall (fun o => o <> None) os.
Proof.
  intro F. split; (eapply Forall_impl; [|exact F]); intros o (r & -> & Fin).
  - simpl. apply is_finite_number.
    exact (proj1 (finite_metrics_fields r Fin)).
  - discriminate.
Qed.

Lemma drawable_row (r : Metrics) (label : string) :
  In label colors -> finite_metrics r = true ->
  drawable (mkBaselineRow r label).
Proof.
  intros Hl Hf. destruct (finite_metrics_fields r Hf) as (P & D & C & _).
  unfold drawable. simpl. auto using is_finite_number.
Qed.

Lemma baseline_complete (st : St W) :
  well_behaved exec file ->
  exists r1 r2 r3 : Metrics,
    collect_baseline_data exec file st
    = (Ok [ mkBaselineRow r1 "RPL"; mkBaselineRow r2 "InsecRPL";
            mkBaselineRow r3 "SecRPL" ],
       snd (run_all exec file baseline_combinations st))
    /\ finite_metrics r1 = true /\ finite_metrics r2 = true
    /\ finite_metrics r3 = true.
Proof.
  intro H.
  pose proof (run_all_succeeds baseline_combinations st H) as F.
  pose proof (run_all_length exec file baseline_combinations st) as L.
  pose proof (baseline_sweep exec file st (proj1 (succeeded_printable F))) as E.
  set (outs := fst (run_all exec file baseline_combinations st)) in *.
  clearbody outs.
  destruct outs as [|o1 [|o2 [|o3 [|o4 outs]]]]; try discriminate L.
  inversion F as [|? ? (r1 & -> & F1) F']; subst.
  inversion F' as [|? ? (r2 & -> & F2) F'']; subst.
  inversion F'' as [|? ? (r3 & -> & F3) _]; subst.
  exists r1, r2, r3. split; [exact E|]. repeat split; assumption.
Qed.

Lemma frequency_complete (st : St W) :
  well_behaved exec file ->
  exists freq_df : list FreqRow,
    collect_attack_frequency_data exec file st
    = (Ok freq_df,
       snd (run_simulation exec file false 800 20 25 1 120
              (snd (run_all exec file frequency_combinations st))))
    /\ List.length freq_df = 15%nat.
Proof.
  intro H. pose proof (frequency_sweep exec file st) as E. cbv zeta in E.
  rewrite E. eexists. split; [reflexivity|].
  pose proof (run_all_succeeds frequency_combinations st H) as F.
  rewrite length_app, present_length.
  - rewrite run_all_length.
    destruct (run_simulation_succeeds false 800 20 25 1 120
                (snd (run_all exec file frequency_combinations st)) H)
      as (r & -> & _).
    reflexivity.
  - rewrite run_all_length. reflexivity.
  - exact (proj2 (succeeded_printable F)).
Qed.

Lemma threshold_complete (st : St W) :
  well_behaved exec file ->
  exists thresh_df : list ThreshRow,
    collect_threshold_data exec file st
    = (Ok thresh_df,
       snd (run_all exec file (map threshold_combination thresholds) st))
    /\ List.length thresh_df = 5%nat.
Proof.
  intro H. unfold collect_threshold_data.
  pose proof (run_all_succeeds (map threshold_combination thresholds) st H)
    as F.
  pose proof (threshold_loop exec file thresholds [] st
                (proj1 (succeeded_printable F))) as E.
  cbv zeta in E. rewrite E. eexists. split; [reflexivity|].
  rewrite app_nil_l, present_length.
  - rewrite run_all_length. reflexivity.
  - rewrite run_all_length. reflexivity.
  - exact (proj2 (succeeded_printable F)).
Qed.

(** *** [main] when a collector raises *)

Lemma main_baseline_raises (s : Session W) (e : pyexn) (st1 : St W) :
  path_exists (world (driver s)) code_file = true ->
  collect_baseline_data exec file (driver s) = (Raise e, st1) ->
  main exec file path_exists int_of_str s
  = (Raise e, mkSession st1 (csv_files s) (figures s) (findings s)).
Proof.
  intros Hp Eb. unfold main. rewrite Hp. simpl negb. cbv iota.
  unfold bind at 1. unfold in_driver at 1. rewrite Eb. reflexivity.
Qed.

Lemma main_threshold_raises (s : Session W) (e : pyexn) (st1 st2 st3 : St W)
    (baseline_df : list BaselineRow) (freq_df : list FreqRow) :
  path_exists (world (driver s)) code_file = true ->
  collect_baseline_data exec file (driver s) = (Ok baseline_df, st1) ->
  collect_attack_frequency_data exec file st1 = (Ok freq_df, st2) ->
  collect_threshold_data exec file st2 = (Raise e, st3) ->
  main exec file path_exists int_of_str s
  = (Raise e, mkSession st3 (csv_files s) (figures s) (findings s)).
Proof.
  intros Hp Eb Ef Et. unfold main. rewrite Hp. simpl negb. cbv iota.
  unfold bind, in_driver. simpl. rewrite Eb. simpl. rewrite Ef. simpl.
  rewrite Et. reflexivity.
Qed.

Lemma baseline_first_call (st : St W) :
  exists rest : list Cmd,
    calls (snd (collect_baseline_data exec file st))
    = calls st ++ build_cmd false 800 20 25 1 120 :: rest.
Proof.
  unfold collect_baseline_data, bind, total, print_pdr, check, ret.
  repeat (run_step_calls; simpl; try split_format_goal).
  all: repeat match goal with
              | C : calls _ = _ |- _ => rewrite C; clear C
              end;
    rewrite <- ?app_assoc; simpl; eexists; reflexivity.
Qed.

(** X12. [main] starts the simulator only if the code file is in the
    scratch folder: without it the session is left as it was (no command
    run, nothing written); with it the run without attack of the baseline
    is the first command. *)
Theorem main_needs_the_code_file :
  forall (s : Session W),
    (path_exists (world (driver s)) code_file = false ->
     main exec file path_exists int_of_str s = (Ok tt, s))
    /\ (path_exists (world (driver s)) code_file = true ->
        exists rest : list Cmd,
          calls (driver (snd (main exec file path_exists int_of_str s)))
          = calls (driver s) ++ build_cmd false 800 20 25 1 120 :: rest).
Proof.
  intro s. split; intro Hp.
  - unfold main. rewrite Hp. reflexivity.
  - destruct (baseline_first_call (driver s)) as [rest1 C1].
    destruct (collect_baseline_data exec file (driver s)) as [[bd|e] st1] eqn:Eb;
      simpl in C1.
    + pose proof (frequency_sweep exec file st1) as Ef. cbv zeta in Ef.
      set (fd := present _ _ ++ broadcast _) in Ef.
      set (st2 := snd (run_simulation exec file false 800 20 25 1 120 _)) in Ef.
      assert (exists l2, calls st2 = calls st1 ++ l2) as [l2 C2].
      { unfold st2. rewrite run_simulation_calls, run_all_calls.
        rewrite <- app_assoc. eexists. reflexivity. }
      destruct (threshold_loop_calls exec file thresholds [] st2) as [n C3].
      fold (collect_threshold_data exec file st2) in C3.
      destruct (collect_threshold_data exec file st2) as [[td|e] st3] eqn:Et;
        simpl in C3.
      * rewrite (main_after_collection s Hp Eb Ef Et). cbv zeta.
        assert (calls st3 = calls (driver s)
                            ++ build_cmd false 800 20 25 1 120
                               :: rest1 ++ l2
                                  ++ map (fun t => build_cmd true 800 t 25 1 120)
                                         (firstn n thresholds)) as C.
        { rewrite C3, C2, C1. rewrite <- !app_assoc. reflexivity. }
        destruct (fst (create_research_style_graphs _ _ _ _ _));
          [destruct (print_summary_table _ _ _ _)|];
          eexists; exact C.
      * rewrite (main_threshold_raises s Hp Eb Ef Et). simpl.
        rewrite C3, C2, C1. rewrite <- !app_assoc. eexists. reflexivity.
    + rewrite (main_baseline_raises s Hp Eb). simpl.
      exists rest1. exact C1.
Qed.

(** X13. Once the three collectors have returned, [main] writes the three
    datasets, as collected and in the order baseline, frequency, threshold,
    before any figure is drawn: they are written whether or not a figure or
    the summary raises.  [main] succeeds exactly when both succeed, and a
    figure that raises leaves the key findings unprinted. *)
Theorem main_writes_the_raw_data_before_drawing :
  forall (s : Session W) (st1 st2 st3 : St W)
         (baseline_df : list BaselineRow) (freq_df : list FreqRow)
         (thresh_df : list ThreshRow),
    path_exists (world (driver s)) code_file = true ->
    collect_baseline_data exec file (driver s) = (Ok baseline_df, st1) ->
    collect_attack_frequency_data exec file st1 = (Ok freq_df, st2) ->
    collect_threshold_data exec file st2 = (Ok thresh_df, st3) ->
    let drawn :=
      create_research_style_graphs int_of_str baseline_df freq_df thresh_df
        (figures s) in
    let summary :=
      print_summary_table int_of_str baseline_df freq_df thresh_df in
    let s' := snd (main exec file path_exists int_of_str s) in
    csv_files s' = csv_files s ++ raw_data baseline_df freq_df thresh_df
    /\ driver s' = st3
    /\ figures s' = snd drawn
    /\ (fst (main exec file path_exists int_of_str s) = Ok tt <->
        fst drawn = Ok tt /\ exists o, summary = Ok o)
    /\ (forall e, fst drawn = Raise e ->
          fst (main exec file path_exists int_of_str s) = Raise e
          /\ findings s' = findings s).
Proof.
  intros s st1 st2 st3 baseline_df freq_df thresh_df Hp Eb Ef Et drawn summary s'.
  subst s'. rewrite (main_after_collection s Hp Eb Ef Et). cbv zeta.
  fold drawn. fold summary.
  destruct (fst drawn) as [[]|e]; [destruct summary as [o|e]|]; simpl;
    (split; [reflexivity|]); (split; [reflexivity|]); (split; [reflexivity|]);
    split.
  - split; [intros _; split; [reflexivity | exists o; reflexivity]
           | intros _; reflexivity].
  - intros e' X. discriminate X.
  - split; [intro X; discriminate X | intros [_ [o X]]; discriminate X].
  - intros e' X. discriminate X.
  - split; [intro X; discriminate X | intros [X _]; discriminate X].
  - intros e' X. injection X as <-. split; reflexivity.
Qed.

(** X14. When the baseline or the threshold collector raises, [main]
    raises the same exception at once: no raw data file is written, no
    figure is drawn and no finding is printed. *)
Theorem main_stops_when_a_collector_raises :
  forall (s : Session W) (e : pyexn) (st1 st2 st3 : St W)
         (baseline_df : list BaselineRow) (freq_df : list FreqRow),
    path_exists (world (driver s)) code_file = true ->
    (collect_baseline_data exec file (driver s) = (Raise e, st1) ->
     main exec file path_exists int_of_str s
     = (Raise e, mkSession st1 (csv_files s) (figures s) (findings s)))
    /\ (collect_baseline_data exec file (driver s) = (Ok baseline_df, st1) ->
        collect_attack_frequency_data exec file st1 = (Ok freq_df, st2) ->
        collect_threshold_data exec file st2 = (Raise e, st3) ->
        main exec file path_exists int_of_str s
        = (Raise e, mkSession st3 (csv_files s) (figures s) (findings s))).
Proof.
  intros s e st1 st2 st3 baseline_df freq_df Hp. split.
  - exact (main_baseline_raises s Hp).
  - exact (main_threshold_raises s Hp).
Qed.

(** X15. On a simulator that always exits with status 0 and always leaves
    readable files with finite numbers, and with the code file in place,
    [main] raises nothing: it runs 19 commands, writes the three raw data
    files, saves the six figures in order and prints the key findings. *)
Theorem main_completes_on_a_well_behaved_simulator :
  forall (s : Session W),
    well_behaved exec file ->
    path_exists (world (driver s)) code_file = true ->
    exists (figs : list Figure) (f : SummaryReport) (s' : Session W),
      main exec file path_exists int_of_str s = (Ok tt, s')
      /\ figures s' = figures s ++ figs
      /\ map filename figs = figure_names
      /\ findings s' = Some f
      /\ map fst (csv_files s')
         = map fst (csv_files s)
           ++ [ String.append RESULTS_DIR "/baseline_data.csv";
                String.append RESULTS_DIR "/frequency_data.csv";
                String.append RESULTS_DIR "/threshold_data.csv" ]
      /\ List.length (calls (driver s'))
         = (List.length (calls (driver s)) + 19)%nat.
Proof.
  intros s H Hp.
  destruct (baseline_complete (driver s) H) as (r1 & r2 & r3 & Eb & F1 & F2 & F3).
  set (st1 := snd (run_all exec file baseline_combinations (driver s))) in *.
  destruct (frequency_complete st1 H) as (fd & Ef & Lf).
  set (st2 := snd (run_simulation exec file false 800 20 25 1 120 _)) in *.
  destruct (threshold_complete st2 H) as (td & Et & Lt).
  set (st3 := snd (run_all exec file (map threshold_combination thresholds) st2))
    in *.
  set (bd := [ mkBaselineRow r1 "RPL"; mkBaselineRow r2 "InsecRPL";
               mkBaselineRow r3 "SecRPL" ]) in *.
  pose proof (main_after_collection s Hp Eb Ef Et) as M. cbv zeta in M.
  destruct (finite_metrics_fields r1 F1) as (P1 & D1 & C1 & _).
  destruct (finite_metrics_fields r2 F2) as (P2 & D2 & C2 & _).
  destruct (finite_metrics_fields r3 F3) as (P3 & D3 & C3 & X3).
  assert (Forall drawable bd) as Hd.
  { unfold bd.
    constructor; [|constructor; [|constructor; [|constructor]]];
      apply drawable_row; solve [assumption | simpl; tauto]. }
  destruct (@figures_on_drawable_data int_of_str bd fd td (figures s)
              (or_intror (conj eq_refl eq_refl)) Hd) as (figs & Ed & Nd).
  assert (is_empty fd = false) as Nf by (destruct fd; [discriminate Lf | reflexivity]).
  assert (is_empty td = false) as Nt by (destruct td; [discriminate Lt | reflexivity]).
  rewrite Nf, Nt in Nd. simpl in Nd.
  assert (Forall (fun row => is_number (pdr (b_metrics row)) = true) bd) as Hn.
  { eapply Forall_impl; [|exact Hd]. intros row Hrow. apply Hrow. }
  assert (forall v, baseline_value bd "SecRPL" ctrl_dropped = Ok v ->
                    exists z, py_int int_of_str v = Ok z) as Hi.
  { intros v Hv. unfold bd, baseline_value in Hv. simpl in Hv.
    injection Hv as <-. destruct (ctrl_dropped r3); try discriminate X3.
    eexists. reflexivity. }
  destruct (@summary_on_numbers int_of_str bd fd td Hn Hi) as (o & Es & Ho).
  destruct o as [f|]; [|contradiction (proj2 Ho eq_refl); reflexivity].
  rewrite Ed, Es in M. simpl in M.
  exists figs, f. eexists. split; [exact M|]. simpl.
  split; [reflexivity|]. split; [exact Nd|]. split; [reflexivity|]. split.
  - rewrite map_app. reflexivity.
  - unfold st3. rewrite run_all_calls. unfold st2.
    rewrite run_simulation_calls, run_all_calls. unfold st1.
    rewrite run_all_calls. rewrite !length_app. simpl. lia.
Qed.

(** X16. On a simulator that fails on every command, with the code file
    in place, [main] still runs all 19 commands and raises nothing; it
    writes three empty datasets, draws no figure and prints no finding. *)
Theorem main_on_a_simulator_that_always_fails :
  forall (s : Session W),
    (forall c w, fst (exec c w) <> 0) ->
    path_exists (world (driver s)) code_file = true ->
    exists st3 : St W,
      main exec file path_exists int_of_str s
      = (Ok tt,
         mkSession st3 (csv_files s ++ raw_data [] [] []) (figures s)
                   (findings s))
      /\ List.length (calls st3) = (List.length (calls (driver s)) + 19)%nat.
Proof.
  intros s F Hp.
  pose proof (baseline_all_fail (driver s) F) as Eb.
  set (st1 := snd (run_all exec file baseline_combinations (driver s))) in *.
  pose proof (frequency_all_fail st1 F) as Ef.
  set (st2 := snd (run_simulation exec file false 800 20 25 1 120 _)) in *.
  pose proof (threshold_all_fail st2 F) as Et.
  set (st3 := snd (run_all exec file (map threshold_combination thresholds) st2))
    in *.
  exists st3. split.
  - rewrite (main_after_collection s Hp Eb Ef Et). reflexivity.
  - unfold st3. rewrite run_all_calls. unfold st2.
    rewrite run_simulation_calls, run_all_calls. unfold st1.
    rewrite run_all_calls. rewrite !length_app. simpl. lia.
Qed.

End MainFacts.

(** ** The further properties on concrete simulators *)

(** X2 on a simulator that fails on the run without attack. *)
Lemma baseline_dataset_shape_witness :
  subseq ["InsecRPL"; "SecRPL"] ["RPL"; "InsecRPL"; "SecRPL"].
Proof.
  exact (proj1 (@baseline_dataset_shape unit (steady_exec without_attack)
                  (steady_file good_files) start _ _ eq_refl)).
Defined.

(** X3 on a simulator that fails on threshold 30. *)
Lemma threshold_dataset_shape_witness :
  StronglySorted Z.lt [5; 10; 20; 50].
Proof.
  exact (proj1 (proj2 (@threshold_dataset_shape unit
                         (steady_exec (has_threshold 30))
                         (steady_file good_files) start _ _ eq_refl))).
Defined.

(** X4 on a simulator that never fails: fifteen rows. *)
Lemma frequency_dataset_shape_witness :
  NoDup frequency_keys /\ (15 <= 15)%nat.
Proof.
  destruct (@frequency_dataset_shape unit (steady_exec never)
              (steady_file good_files) start _ _ eq_refl)
    as (_ & N & L & _).
  split; [exact N | exact L].
Defined.

(** X5 on the simulator that always fails. *)
Lemma collectors_return_empty_when_every_run_fails_witness :
  fst (collect_threshold_data (steady_exec always) (steady_file good_files)
         start) = Ok [].
Proof.
  refine (proj1 (proj2 (proj2
            (@collectors_return_empty_when_every_run_fails unit
               (steady_exec always) (steady_file good_files) _ start)))).
  intros c w. discriminate.
Defined.

(** X7 on the SecRPL rows of [sample_freq_df]: rates 200, 400, 800. *)
Lemma curve_runs_from_long_to_short_interval_witness :
  exists qs : list Q,
    [period 200; period 400; period 800] = map VNum qs
    /\ StronglySorted (fun a b => b <= a)%Q qs.
Proof.
  destruct (@curve_runs_from_long_to_short_interval sample_freq_df pdr "SecRPL"
              (mkSeries "SecRPL" [period 200; period 400; period 800]
                        [VNum 0.91; VNum 0.91; VNum 0.91]))
    as (qs & E & _ & S).
  - repeat constructor.
  - left. reflexivity.
  - exists qs. split; [exact E | exact S].
Defined.

(** X9 on a full baseline with frequency and threshold rows. *)
Lemma figures_saved_for_each_dataset_with_rows_witness :
  map filename
      (snd (create_research_style_graphs no_int full_baseline sample_freq_df
              one_threshold_row []))
  = figure_names.
Proof.
  destruct (@figures_saved_for_each_dataset_with_rows no_int full_baseline
              sample_freq_df one_threshold_row [])
    as (figs & E & N).
  - right. split; reflexivity.
  - repeat (constructor; [unfold drawable; simpl; intuition|]). constructor.
  - rewrite E. exact N.
Defined.


(** X11 on a baseline whose attack-only ratio is zero. *)
Lemma summary_with_zero_attack_ratio_witness :
  exists g : Q,
    print_summary_table no_int zero_ratio_baseline [] []
    = Ok (Some (mkSummaryReport VNonFinite (VNum g) 340))
    /\ (g == 100)%Q.
Proof.
  apply (@summary_with_zero_attack_ratio no_int zero_ratio_baseline [] []
           0%Q 0.91%Q 340%Q); reflexivity.
Defined.

(** X13 on a simulator that fails on the run without attack: the fourth
    figure raises and the raw data are written all the same. *)
Lemma main_writes_the_raw_data_before_drawing_witness :
  map fst (csv_files
             (snd (main (steady_exec without_attack) (steady_file good_files)
                        all_paths no_int (fresh tt))))
  = [ String.append RESULTS_DIR "/baseline_data.csv";
      String.append RESULTS_DIR "/frequency_data.csv";
      String.append RESULTS_DIR "/threshold_data.csv" ]
  /\ fst (main (steady_exec without_attack) (steady_file good_files)
            all_paths no_int (fresh tt)) = Raise IndexError.
Proof.
  destruct (@main_writes_the_raw_data_before_drawing unit
              (steady_exec without_attack) (steady_file good_files)
              all_paths no_int (fresh tt) _ _ _ _ _ _
              eq_refl eq_refl eq_refl eq_refl)
    as (Ecsv & _ & _ & _ & Hr).
  split.
  - rewrite Ecsv. reflexivity.
  - exact (proj1 (Hr IndexError eq_refl)).
Defined.

(** X14 on files whose ratio is text: the baseline collector raises. *)
Lemma main_stops_when_a_collector_raises_witness :
  main (steady_exec never) (steady_file text_files) all_paths no_int (fresh tt)
  = (Raise ValueError,
     mkSession (mkSt tt [build_cmd false 800 20 25 1 120]) [] [] None).
Proof.
  exact (proj1 (@main_stops_when_a_collector_raises unit (steady_exec never)
                  (steady_file text_files) all_paths no_int (fresh tt)
                  ValueError _ start start [] [] eq_refl) eq_refl).
Defined.

(** X15 on a simulator that never fails and writes [good_files]. *)
Lemma main_completes_on_a_well_behaved_simulator_witness :
  fst (main (steady_exec never) (steady_file good_files) all_paths no_int
         (fresh tt)) = Ok tt
  /\ map filename
         (figures (snd (main (steady_exec never) (steady_file good_files)
                          all_paths no_int (fresh tt))))
     = figure_names.
Proof.
  destruct (@main_completes_on_a_well_behaved_simulator unit
              (steady_exec never) (steady_file good_files) all_paths no_int
              (fresh tt))
    as (figs & f & s' & E & Fg & N & _).
  - split; [intros c w; reflexivity|].
    intros w. exists good_record. split; reflexivity.
  - reflexivity.
  - rewrite E. simpl. rewrite Fg. split; [reflexivity | exact N].
Defined.

(** X16 on the simulator that always fails. *)
Lemma main_on_a_simulator_that_always_fails_witness :
  fst (main (steady_exec always) (steady_file good_files) all_paths no_int
         (fresh tt)) = Ok tt
  /\ csv_files (snd (main (steady_exec always) (steady_file good_files)
                        all_paths no_int (fresh tt)))
     = raw_data [] [] [].
Proof.
  destruct (@main_on_a_simulator_that_always_fails unit (steady_exec always)
              (steady_file good_files) all_paths no_int (fresh tt))
    as (st3 & E & _).
  - intros c w. discriminate.
  - reflexivity.
  - rewrite E. split; reflexivity.
Defined.
